(** * Deposit-bonus settings: model of [src/models/BonusSettings.js]

    The source file holds the mongoose model [BonusSettings] (schema,
    [getSettings], [calculateBonus]) followed by the admin router
    (PUT /settings, POST /tiers, PUT /users/:userId/adjust, ...).

    Numbers.  Two embeddings of the Number type are used.

    - In the main development a Number is the rational it denotes ([Q],
      compared with [Qeq]).  Comparisons of finite Numbers are exact, so every
      branch is taken exactly as in the source; products, sums and quotients
      are the exact ones.  What is proved there is about which branch runs,
      what is stored, and order facts that binary64 arithmetic keeps.  The
      document at which the cap is exceeded ([eighthCapSettings]) has dyadic
      and small integer fields only, so the binary64 run takes the same
      steps: 100 * 10 / 100 = 10, clamped to 0.125, 0.125 * 100 = 12.5,
      rounded to 13.
    - Module [Binary64] embeds [calculateBonus] over binary64 values, with
      every product and quotient rounded as the source rounds it.  It is
      used where the digits of the result matter.

    Request bodies.  The records [TierBody], [SettingsBody], [TierPatch] and
    the [amount] of [adjust] hold JSON numbers.  The [isFloat] chains also
    let numeric strings through; [Amount] and [adjustRejects] embed what
    lines 415-416 do with such a string. *)

From Stdlib Require Import QArith Qround Qabs Lqa ZArith Lia Bool List String.
From Stdlib Require Import PrimFloat FloatOps SpecFloat Uint63.
From stdpp Require Import base option list gmap strings pretty.
Import ListNotations.

Local Open Scope Q_scope.

(** ** JavaScript numeric primitives *)

Module JS.

(** [x < y], [x <= y], [x > y], [x >= y] on finite Numbers. *)
Definition lt (x y : Q) : bool := negb (Qle_bool y x).
Definition le (x y : Q) : bool := Qle_bool x y.
Definition gt (x y : Q) : bool := lt y x.
Definition ge (x y : Q) : bool := le y x.

(** [Math.round]: the integer closest to [x], ties towards +infinity. *)
Definition Math_round (x : Q) : Z := Qfloor (x + (1 # 2)).

End JS.

Notation "x <? y" := (JS.lt x y) (at level 70, no associativity) : Q_scope.
Notation "x <=? y" := (JS.le x y) (at level 70, no associativity) : Q_scope.
Notation "x >? y" := (JS.gt x y) (at level 70, no associativity) : Q_scope.
Notation "x >=? y" := (JS.ge x y) (at level 70, no associativity) : Q_scope.

(** ** The schema (lines 3-96) *)

Definition AdminId := string.

(** An element of [bonusTiers]. *)
Record BonusTier : Type := mkTier {
  minDeposit : Q;
  maxDeposit : Q;
  bonusPercent : Q;
  isActive : bool
}.

(** The settings document.  The [createdAt]/[updatedAt] stamps that the ORM
    maintains under [timestamps: true] are written by [save], not by the
    code of this file, and are left out. *)
Record BonusSettings : Type := mkSettings {
  isEnabled : bool;
  regularBonusPercent : Q;
  firstDepositBonusPercent : Q;
  firstDepositBonusEnabled : bool;
  minDepositForBonus : Q;
  maxBonusAmount : Q;
  bonusWithdrawable : bool;
  withdrawalVolumeMultiplier : Q;
  bonusExpiryDays : Q;
  bonusTiers : list BonusTier;
  useTierBonus : bool;
  updatedBy : option AdminId
}.

(** The document [create({})] builds: every path at its schema default. *)
Definition defaultSettings : BonusSettings := {|
  isEnabled := true;
  regularBonusPercent := 0;
  firstDepositBonusPercent := 0;
  firstDepositBonusEnabled := false;
  minDepositForBonus := 100;
  maxBonusAmount := 0;
  bonusWithdrawable := false;
  withdrawalVolumeMultiplier := 3;
  bonusExpiryDays := 30;
  bonusTiers := [];
  useTierBonus := false;
  updatedBy := None
|}.

(** The [min: 0, max: 100] validators of the schema; they are the only
    validators a well-typed document can fail. *)
Definition percentOk (p : Q) : bool := (p >=? 0) && (p <=? 100).

Definition validate (doc : BonusSettings) : bool :=
  percentOk (regularBonusPercent doc) &&
  percentOk (firstDepositBonusPercent doc) &&
  forallb (fun tier => percentOk (bonusPercent tier)) (bonusTiers doc).

(** [doc.save()]: the document is validated and then stored; [None] is the
    validation error thrown instead. *)
Definition save (doc : BonusSettings) : option BonusSettings :=
  if validate doc then Some doc else None.

(** ** [getSettings] (lines 99-105)

    The collection holds at most one document: [None] is the empty
    collection.  The result is the document and the collection afterwards. *)
Definition getSettings (db : option BonusSettings)
  : BonusSettings * option BonusSettings :=
  match db with
  | Some settings => (settings, db)
  | None => (defaultSettings, Some defaultSettings)
  end.

(** ** [calculateBonus] (lines 108-140) *)

(** The predicate handed to [find] (lines 119-123). *)
Definition tierApplies (depositAmount : Q) (tier : BonusTier) : bool :=
  isActive tier &&
  (depositAmount >=? minDeposit tier) &&
  (depositAmount <=? maxDeposit tier).

(** Lines 112-130: the value of the local [bonusPercent]. *)
Definition selectBonusPercent (this : BonusSettings) (depositAmount : Q)
    (isFirstDeposit : bool) : Q :=
  if isFirstDeposit && firstDepositBonusEnabled this then
    firstDepositBonusPercent this
  else if useTierBonus this && (0 <? length (bonusTiers this))%nat then
    match find (tierApplies depositAmount) (bonusTiers this) with
    | Some applicableTier => bonusPercent applicableTier
    | None => 0
    end
  else
    regularBonusPercent this.

(** Lines 134-137: the cap. *)
Definition applyMaxCap (this : BonusSettings) (bonusAmount : Q) : Q :=
  if (maxBonusAmount this >? 0) && (bonusAmount >? maxBonusAmount this)
  then maxBonusAmount this
  else bonusAmount.

(** Line 139: [Math.round(bonusAmount * 100) / 100]. *)
Definition roundToCents (bonusAmount : Q) : Q :=
  inject_Z (JS.Math_round (bonusAmount * 100)) / 100.

Definition calculateBonus (this : BonusSettings) (depositAmount : Q)
    (isFirstDeposit : bool) : Q :=
  if negb (isEnabled this) then 0
  else if depositAmount <? minDepositForBonus this then 0
  else
    let bonusPercent := selectBonusPercent this depositAmount isFirstDeposit in
    let bonusAmount := (depositAmount * bonusPercent) / 100 in
    let bonusAmount := applyMaxCap this bonusAmount in
    roundToCents bonusAmount.

(** ** [calculateBonus] over binary64 values *)

Module Binary64.

(** The paths [calculateBonus] reads, as binary64 values. *)
Record BonusTier : Type := mkTier {
  minDeposit : float;
  maxDeposit : float;
  bonusPercent : float;
  isActive : bool
}.

Record BonusSettings : Type := mkSettings {
  isEnabled : bool;
  regularBonusPercent : float;
  firstDepositBonusPercent : float;
  firstDepositBonusEnabled : bool;
  minDepositForBonus : float;
  maxBonusAmount : float;
  bonusTiers : list BonusTier;
  useTierBonus : bool
}.

(** The binary64 value of an integer of magnitude below 2^53. *)
Definition ofInteger (k : Z) : float :=
  if (k <? 0)%Z then PrimFloat.opp (PrimFloat.of_uint63 (Uint63.of_Z (- k)))
  else PrimFloat.of_uint63 (Uint63.of_Z k).

(** [Math.round]: NaN, the infinities, the zeros and the integers are
    returned as they are; otherwise the result is the integer
    [floor (x + 1/2)], computed exactly, with the sign of [x] when it is
    zero.  A finite [x] with a non-negative exponent is an integer; one with
    a negative exponent is below 2^52 in magnitude. *)
Definition Math_round (x : float) : float :=
  match Prim2SF x with
  | S754_finite s m e =>
      if (0 <=? e)%Z then x
      else
        let n := if s then Z.neg m else Z.pos m in
        let k := ((2 * n + 2 ^ (- e)) / 2 ^ (1 - e))%Z in
        if (k =? 0)%Z then (if s then PrimFloat.opp 0%float else 0%float)
        else ofInteger k
  | _ => x
  end.

(** The predicate handed to [find] (lines 119-123). *)
Definition tierApplies (depositAmount : float) (tier : BonusTier) : bool :=
  isActive tier &&
  PrimFloat.leb (minDeposit tier) depositAmount &&
  PrimFloat.leb depositAmount (maxDeposit tier).

(** Lines 112-130. *)
Definition selectBonusPercent (this : BonusSettings) (depositAmount : float)
    (isFirstDeposit : bool) : float :=
  if isFirstDeposit && firstDepositBonusEnabled this then
    firstDepositBonusPercent this
  else if useTierBonus this && (0 <? length (bonusTiers this))%nat then
    match find (tierApplies depositAmount) (bonusTiers this) with
    | Some applicableTier => bonusPercent applicableTier
    | None => 0%float
    end
  else
    regularBonusPercent this.

(** Lines 134-137. *)
Definition applyMaxCap (this : BonusSettings) (bonusAmount : float) : float :=
  if PrimFloat.ltb 0%float (maxBonusAmount this) &&
     PrimFloat.ltb (maxBonusAmount this) bonusAmount
  then maxBonusAmount this
  else bonusAmount.

(** Line 139. *)
Definition roundToCents (bonusAmount : float) : float :=
  PrimFloat.div (Math_round (PrimFloat.mul bonusAmount 100%float)) 100%float.

(** Lines 108-140. *)
Definition calculateBonus (this : BonusSettings) (depositAmount : float)
    (isFirstDeposit : bool) : float :=
  if negb (isEnabled this) then 0%float
  else if PrimFloat.ltb depositAmount (minDepositForBonus this) then 0%float
  else
    let bonusPercent := selectBonusPercent this depositAmount isFirstDeposit in
    let bonusAmount :=
      PrimFloat.div (PrimFloat.mul depositAmount bonusPercent) 100%float in
    let bonusAmount := applyMaxCap this bonusAmount in
    roundToCents bonusAmount.

(** The rational a finite binary64 value is. *)
Definition toQ (x : float) : option Q :=
  match Prim2SF x with
  | S754_zero _ => Some 0
  | S754_finite s m e => Some (inject_Z (if s then Z.neg m else Z.pos m) * 2 ^ e)
  | _ => None
  end.

(** [x] is finite and is the rational [q]. *)
Definition denotes (x : float) (q : Q) : Prop :=
  match toQ x with
  | Some q' => q' == q
  | None => False
  end.

End Binary64.

(** ** The admin router *)

(** What a handler sends: [res.json({ success: true, message })], a
    [res.status(n).json({ success: false, message })], or the 400 carrying
    the validator's error array. *)
Inductive Response : Type :=
  | ok (message : string)
  | error (status : Z) (message : string)
  | invalid (errors : list string).

(** *** PUT /settings (lines 170-210) *)

(** The destructured [req.body]; [None] is [undefined]. *)
Record SettingsBody : Type := mkSettingsBody {
  body_isEnabled : option bool;
  body_regularBonusPercent : option Q;
  body_firstDepositBonusPercent : option Q;
  body_firstDepositBonusEnabled : option bool;
  body_minDepositForBonus : option Q;
  body_maxBonusAmount : option Q;
  body_bonusWithdrawable : option bool;
  body_withdrawalVolumeMultiplier : option Q;
  body_bonusExpiryDays : option Q;
  body_useTierBonus : option bool
}.

(** Field assignments [settings.f = v]. *)
Definition set_isEnabled (v : bool) (s : BonusSettings) : BonusSettings :=
  mkSettings v (regularBonusPercent s) (firstDepositBonusPercent s)
    (firstDepositBonusEnabled s) (minDepositForBonus s) (maxBonusAmount s)
    (bonusWithdrawable s) (withdrawalVolumeMultiplier s) (bonusExpiryDays s)
    (bonusTiers s) (useTierBonus s) (updatedBy s).
Definition set_regularBonusPercent (v : Q) (s : BonusSettings) : BonusSettings :=
  mkSettings (isEnabled s) v (firstDepositBonusPercent s)
    (firstDepositBonusEnabled s) (minDepositForBonus s) (maxBonusAmount s)
    (bonusWithdrawable s) (withdrawalVolumeMultiplier s) (bonusExpiryDays s)
    (bonusTiers s) (useTierBonus s) (updatedBy s).
Definition set_firstDepositBonusPercent (v : Q) (s : BonusSettings) : BonusSettings :=
  mkSettings (isEnabled s) (regularBonusPercent s) v
    (firstDepositBonusEnabled s) (minDepositForBonus s) (maxBonusAmount s)
    (bonusWithdrawable s) (withdrawalVolumeMultiplier s) (bonusExpiryDays s)
    (bonusTiers s) (useTierBonus s) (updatedBy s).
Definition set_firstDepositBonusEnabled (v : bool) (s : BonusSettings) : BonusSettings :=
  mkSettings (isEnabled s) (regularBonusPercent s) (firstDepositBonusPercent s)
    v (minDepositForBonus s) (maxBonusAmount s)
    (bonusWithdrawable s) (withdrawalVolumeMultiplier s) (bonusExpiryDays s)
    (bonusTiers s) (useTierBonus s) (updatedBy s).
Definition set_minDepositForBonus (v : Q) (s : BonusSettings) : BonusSettings :=
  mkSettings (isEnabled s) (regularBonusPercent s) (firstDepositBonusPercent s)
    (firstDepositBonusEnabled s) v (maxBonusAmount s)
    (bonusWithdrawable s) (withdrawalVolumeMultiplier s) (bonusExpiryDays s)
    (bonusTiers s) (useTierBonus s) (updatedBy s).
Definition set_maxBonusAmount (v : Q) (s : BonusSettings) : BonusSettings :=
  mkSettings (isEnabled s) (regularBonusPercent s) (firstDepositBonusPercent s)
    (firstDepositBonusEnabled s) (minDepositForBonus s) v
    (bonusWithdrawable s) (withdrawalVolumeMultiplier s) (bonusExpiryDays s)
    (bonusTiers s) (useTierBonus s) (updatedBy s).
Definition set_bonusWithdrawable (v : bool) (s : BonusSettings) : BonusSettings :=
  mkSettings (isEnabled s) (regularBonusPercent s) (firstDepositBonusPercent s)
    (firstDepositBonusEnabled s) (minDepositForBonus s) (maxBonusAmount s)
    v (withdrawalVolumeMultiplier s) (bonusExpiryDays s)
    (bonusTiers s) (useTierBonus s) (updatedBy s).
Definition set_withdrawalVolumeMultiplier (v : Q) (s : BonusSettings) : BonusSettings :=
  mkSettings (isEnabled s) (regularBonusPercent s) (firstDepositBonusPercent s)
    (firstDepositBonusEnabled s) (minDepositForBonus s) (maxBonusAmount s)
    (bonusWithdrawable s) v (bonusExpiryDays s)
    (bonusTiers s) (useTierBonus s) (updatedBy s).
Definition set_bonusExpiryDays (v : Q) (s : BonusSettings) : BonusSettings :=
  mkSettings (isEnabled s) (regularBonusPercent s) (firstDepositBonusPercent s)
    (firstDepositBonusEnabled s) (minDepositForBonus s) (maxBonusAmount s)
    (bonusWithdrawable s) (withdrawalVolumeMultiplier s) v
    (bonusTiers s) (useTierBonus s) (updatedBy s).
Definition set_bonusTiers (v : list BonusTier) (s : BonusSettings) : BonusSettings :=
  mkSettings (isEnabled s) (regularBonusPercent s) (firstDepositBonusPercent s)
    (firstDepositBonusEnabled s) (minDepositForBonus s) (maxBonusAmount s)
    (bonusWithdrawable s) (withdrawalVolumeMultiplier s) (bonusExpiryDays s)
    v (useTierBonus s) (updatedBy s).
Definition set_useTierBonus (v : bool) (s : BonusSettings) : BonusSettings :=
  mkSettings (isEnabled s) (regularBonusPercent s) (firstDepositBonusPercent s)
    (firstDepositBonusEnabled s) (minDepositForBonus s) (maxBonusAmount s)
    (bonusWithdrawable s) (withdrawalVolumeMultiplier s) (bonusExpiryDays s)
    (bonusTiers s) v (updatedBy s).
Definition set_updatedBy (v : AdminId) (s : BonusSettings) : BonusSettings :=
  mkSettings (isEnabled s) (regularBonusPercent s) (firstDepositBonusPercent s)
    (firstDepositBonusEnabled s) (minDepositForBonus s) (maxBonusAmount s)
    (bonusWithdrawable s) (withdrawalVolumeMultiplier s) (bonusExpiryDays s)
    (bonusTiers s) (useTierBonus s) (Some v).

(** [if (v !== undefined) settings.f = v;] *)
Definition ifDefined {A : Type} (v : option A)
    (assign : A -> BonusSettings -> BonusSettings) (settings : BonusSettings)
  : BonusSettings :=
  match v with
  | Some x => assign x settings
  | None => settings
  end.

(** The handler: the response, and the collection afterwards.  A failed
    [save] lands in the [catch] block. *)
Definition put_settings (admin : AdminId) (body : SettingsBody)
    (db : option BonusSettings) : Response * option BonusSettings :=
  let '(settings, db) := getSettings db in
  let settings :=
    ifDefined (body_isEnabled body) set_isEnabled settings in
  let settings :=
    ifDefined (body_regularBonusPercent body) set_regularBonusPercent settings in
  let settings :=
    ifDefined (body_firstDepositBonusPercent body) set_firstDepositBonusPercent settings in
  let settings :=
    ifDefined (body_firstDepositBonusEnabled body) set_firstDepositBonusEnabled settings in
  let settings :=
    ifDefined (body_minDepositForBonus body) set_minDepositForBonus settings in
  let settings :=
    ifDefined (body_maxBonusAmount body) set_maxBonusAmount settings in
  let settings :=
    ifDefined (body_bonusWithdrawable body) set_bonusWithdrawable settings in
  let settings :=
    ifDefined (body_withdrawalVolumeMultiplier body) set_withdrawalVolumeMultiplier settings in
  let settings :=
    ifDefined (body_bonusExpiryDays body) set_bonusExpiryDays settings in
  let settings :=
    ifDefined (body_useTierBonus body) set_useTierBonus settings in
  let settings := set_updatedBy admin settings in
  match save settings with
  | Some saved => (ok "Bonus settings updated successfully", Some saved)
  | None => (error 500 "Server error", db)
  end.

(** *** POST /tiers (lines 215-270) *)

(** The destructured [req.body], its three fields being JSON numbers. *)
Record TierBody : Type := mkTierBody {
  body_minDeposit : Q;
  body_maxDeposit : Q;
  body_bonusPercent : Q
}.

(** The three [express-validator] chains (lines 216-218); the result is
    [errors.array()]. *)
Definition validateTierBody (body : TierBody) : list string :=
  (if body_minDeposit body >=? 0 then []
   else ["Min deposit must be a positive number"%string]) ++
  (if body_maxDeposit body >=? 0 then []
   else ["Max deposit must be a positive number"%string]) ++
  (if (body_bonusPercent body >=? 0) && (body_bonusPercent body <=? 100) then []
   else ["Bonus percent must be between 0 and 100"%string]).

(** The predicate handed to [some] (lines 238-242). *)
Definition overlapsTier (newMin newMax : Q) (tier : BonusTier) : bool :=
  ((newMin >=? minDeposit tier) && (newMin <=? maxDeposit tier)) ||
  ((newMax >=? minDeposit tier) && (newMax <=? maxDeposit tier)) ||
  ((newMin <=? minDeposit tier) && (newMax >=? maxDeposit tier)).

Definition hasOverlap (newMin newMax : Q) (tiers : list BonusTier) : bool :=
  existsb (overlapsTier newMin newMax) tiers.

Definition post_tiers (admin : AdminId) (body : TierBody)
    (db : option BonusSettings) : Response * option BonusSettings :=
  match validateTierBody body with
  | (_ :: _) as errors => (invalid errors, db)
  | [] =>
    if body_minDeposit body >=? body_maxDeposit body then
      (error 400 "Min deposit must be less than max deposit", db)
    else
      let '(settings, db) := getSettings db in
      if hasOverlap (body_minDeposit body) (body_maxDeposit body)
           (bonusTiers settings) then
        (error 400 "Tier range overlaps with existing tier", db)
      else
        let settings :=
          set_bonusTiers
            (bonusTiers settings ++
               [mkTier (body_minDeposit body) (body_maxDeposit body)
                  (body_bonusPercent body) true])
            settings in
        let settings := set_updatedBy admin settings in
        match save settings with
        | Some saved => (ok "Bonus tier added successfully", Some saved)
        | None => (error 500 "Server error", db)
        end
  end.

(** *** PUT /users/:userId/adjust (lines 397-455) *)

(** The two paths of the [User] document this file reads and writes. *)
Record User : Type := mkUser {
  bonusBalance : Q;
  totalBonusReceived : Q
}.

(** The document handed to [Transaction.create] (lines 430-440). *)
Record Transaction : Type := mkTransaction {
  tx_user : string;
  tx_type : string;
  tx_amount : Q;
  tx_status : string;
  tx_description : string;
  tx_balanceBefore : Q;
  tx_balanceAfter : Q;
  tx_processedAt : Z;
  tx_processedBy : AdminId
}.

(** The two collections the handler touches. *)
Record Ledger : Type := mkLedger {
  users : gmap string User;
  transactions : list Transaction
}.

(** [reason || `Manual bonus adjustment by admin`]: an absent or empty
    reason is falsy. *)
Definition descriptionOf (reason : option string) : string :=
  match reason with
  | Some EmptyString | None => "Manual bonus adjustment by admin"
  | Some r => r
  end.

(** The handler on an [amount] that is a JSON number, which the [isFloat]
    chain lets through; [now] is the value of [new Date()].  The [User] and
    [Transaction] schemas are not part of this file: [user.save()] and
    [Transaction.create] are taken to store what they are given. *)
Definition adjust (admin : AdminId) (now : Z) (userId : string) (amount : Q)
    (reason : option string) (st : Ledger) : Response * Ledger :=
  match users st !! userId with
  | None => (error 404 "User not found", st)
  | Some user =>
    let newBonusBalance := bonusBalance user + amount in
    if newBonusBalance <? 0 then
      (error 400 "Adjustment would result in negative bonus balance", st)
    else
      let user :=
        mkUser newBonusBalance
          (if amount >? 0 then totalBonusReceived user + amount
           else totalBonusReceived user) in
      let users' := <[userId := user]> (users st) in
      let created :=
        mkTransaction userId "bonus" amount "completed" (descriptionOf reason)
          (bonusBalance user - amount) (bonusBalance user) now admin in
      (ok (if amount >=? 0 then "Bonus added successfully"
           else "Bonus deducted successfully"),
       mkLedger users' (transactions st ++ [created]))
  end.

(** *** Lines 415-416 on the amount as it arrives *)

(** A value of [req.body.amount] that passes [body('amount').isFloat()]:
    a JSON number, or a string in number format such as ["-100"].  The
    chain has no [toFloat()], so a string reaches line 415 as a string. *)
Inductive Amount : Type :=
  | AmountNumber (n : Q)
  | AmountString (s : string).

Section RawAmount.

(** Two built-ins of the language: the conversion of a Number to a string
    and of a string to a Number ([None] is NaN). *)
Variable numberToString : Q -> string.
Variable stringToNumber : string -> option Q.

(** Line 415, [user.bonusBalance + amount]: a sum, or a concatenation when
    [amount] is a string. *)
Definition newBonusBalance (bonusBalance : Q) (amount : Amount) : Amount :=
  match amount with
  | AmountNumber n => AmountNumber (bonusBalance + n)
  | AmountString s => AmountString (numberToString bonusBalance ++ s)
  end.

(** Line 416, [newBonusBalance < 0]: a string is converted to a Number
    first, and no comparison with NaN holds. *)
Definition isNegative (value : Amount) : bool :=
  match value with
  | AmountNumber n => n <? 0
  | AmountString s =>
      match stringToNumber s with
      | Some n => n <? 0
      | None => false
      end
  end.

(** Whether lines 415-421 answer with the negative-balance error. *)
Definition adjustRejects (bonusBalance : Q) (amount : Amount) : bool :=
  isNegative (newBonusBalance bonusBalance amount).

End RawAmount.

(** *** PUT /tiers/:index (lines 275-303) *)

(** The destructured [req.body]; [None] is [undefined]. *)
Record TierPatch : Type := mkTierPatch {
  patch_minDeposit : option Q;
  patch_maxDeposit : option Q;
  patch_bonusPercent : option Q;
  patch_isActive : option bool
}.

(** Lines 286-289, on the element [settings.bonusTiers[index]]. *)
Definition assignTierFields (patch : TierPatch) (tier : BonusTier) : BonusTier :=
  let tier :=
    match patch_minDeposit patch with
    | Some v => mkTier v (maxDeposit tier) (bonusPercent tier) (isActive tier)
    | None => tier
    end in
  let tier :=
    match patch_maxDeposit patch with
    | Some v => mkTier (minDeposit tier) v (bonusPercent tier) (isActive tier)
    | None => tier
    end in
  let tier :=
    match patch_bonusPercent patch with
    | Some v => mkTier (minDeposit tier) (maxDeposit tier) v (isActive tier)
    | None => tier
    end in
  match patch_isActive patch with
  | Some v => mkTier (minDeposit tier) (maxDeposit tier) (bonusPercent tier) v
  | None => tier
  end.

(** The handler, for a path segment that is the decimal form of the
    integer [index] as the language prints it (["0"], ["7"], ["-1"]): the
    comparisons of line 282 read it as that number and lines 286-289 reach
    the element at that position.  Other segments (["01"], ["1.0"],
    ["abc"]) are not in the domain of this definition. *)
Definition put_tier (admin : AdminId) (index : Z) (patch : TierPatch)
    (db : option BonusSettings) : Response * option BonusSettings :=
  let '(settings, db) := getSettings db in
  if (index <? 0)%Z || (index >=? Z.of_nat (length (bonusTiers settings)))%Z then
    (error 404 "Tier not found", db)
  else
    let settings :=
      set_bonusTiers
        (alter (assignTierFields patch) (Z.to_nat index) (bonusTiers settings))
        settings in
    let settings := set_updatedBy admin settings in
    match save settings with
    | Some saved => (ok "Bonus tier updated successfully", Some saved)
    | None => (error 500 "Server error", db)
    end.

(** *** DELETE /tiers/:index (lines 308-331) *)

(** The handler, for a path segment whose value is the integer [index]
    (["2"], ["02"], ["2.0"] alike): line 314 compares it as that number and
    [splice(index, 1)] removes the element at that position.  Segments
    without an integer value (["abc"], ["0.5"]) are not in the domain of
    this definition. *)
Definition delete_tier (admin : AdminId) (index : Z)
    (db : option BonusSettings) : Response * option BonusSettings :=
  let '(settings, db) := getSettings db in
  if (index <? 0)%Z || (index >=? Z.of_nat (length (bonusTiers settings)))%Z then
    (error 404 "Tier not found", db)
  else
    let settings :=
      set_bonusTiers (delete (Z.to_nat index) (bonusTiers settings)) settings in
    let settings := set_updatedBy admin settings in
    match save settings with
    | Some saved => (ok "Bonus tier deleted successfully", Some saved)
    | None => (error 500 "Server error", db)
    end.

(** *** The routes that write the settings collection *)

Inductive Request : Type :=
  | PutSettings (admin : AdminId) (body : SettingsBody)
  | PostTier (admin : AdminId) (body : TierBody)
  | PutTier (admin : AdminId) (index : Z) (patch : TierPatch)
  | DeleteTier (admin : AdminId) (index : Z).

Definition route (req : Request) (db : option BonusSettings)
  : Response * option BonusSettings :=
  match req with
  | PutSettings admin body => put_settings admin body db
  | PostTier admin body => post_tiers admin body db
  | PutTier admin index patch => put_tier admin index patch db
  | DeleteTier admin index => delete_tier admin index db
  end.

(** The collection after a sequence of requests, served one at a time. *)
Definition serve (reqs : list Request) (db : option BonusSettings)
  : option BonusSettings :=
  foldl (fun db req => snd (route req db)) db reqs.

(** A request to PUT /users/:userId/adjust, and the ledger after a sequence
    of them. *)
Record Adjustment : Type := mkAdjustment {
  adj_admin : AdminId;
  adj_now : Z;
  adj_userId : string;
  adj_amount : Q;
  adj_reason : option string
}.

Definition applyAdjustment (a : Adjustment) (st : Ledger) : Response * Ledger :=
  adjust (adj_admin a) (adj_now a) (adj_userId a) (adj_amount a) (adj_reason a) st.

Definition applyAdjustments (l : list Adjustment) (st : Ledger) : Ledger :=
  foldl (fun st a => snd (applyAdjustment a st)) st l.

(** * Vocabulary of the statements *)

(** A document passes the validators of the schema. *)
Definition percentInRange (p : Q) : Prop := 0 <= p /\ p <= 100.

Definition schemaValid (doc : BonusSettings) : Prop :=
  percentInRange (regularBonusPercent doc) /\
  percentInRange (firstDepositBonusPercent doc) /\
  Forall (fun tier => percentInRange (bonusPercent tier)) (bonusTiers doc).

(** The response of lines 417-420. *)
Definition negativeBalanceError : Response :=
  error 400 "Adjustment would result in negative bonus balance".

(** The response of lines 245-248. *)
Definition overlapError : Response :=
  error 400 "Tier range overlaps with existing tier".

(** The value a path has after the update: the one sent, or the prior one. *)
Definition sentOr {A : Type} (sent : option A) (prior : A) : A :=
  match sent with
  | Some v => v
  | None => prior
  end.

(** A tier matches a deposit: it is active and the deposit lies within its
    inclusive bounds. *)
Definition tierMatches (depositAmount : Q) (tier : BonusTier) : Prop :=
  isActive tier = true /\
  minDeposit tier <= depositAmount /\ depositAmount <= maxDeposit tier.

(** [tier], stored at position [i], is the first matching tier of [tiers]. *)
Definition firstMatchingTier (depositAmount : Q) (tiers : list BonusTier)
    (i : nat) (tier : BonusTier) : Prop :=
  tiers !! i = Some tier /\
  tierMatches depositAmount tier /\
  forall (j : nat) (earlier : BonusTier),
    (j < i)%nat -> tiers !! j = Some earlier -> ~ tierMatches depositAmount earlier.

(** Two inclusive ranges share a point. *)
Definition rangesIntersect (lo hi lo' hi' : Q) : Prop :=
  exists x : Q, (lo <= x /\ x <= hi) /\ (lo' <= x /\ x <= hi').

(** [r] is [x] rounded at the hundredths place, halves away from zero:
    a whole number of hundredths, at most half a hundredth from [x], and of
    larger magnitude than [x] when exactly half a hundredth from it. *)
Definition roundedHalfAwayFromZero (x r : Q) : Prop :=
  (exists k : Z, r == inject_Z k / 100) /\
  Qabs (r - x) <= 1 # 200 /\
  (Qabs (r - x) == 1 # 200 -> Qabs x < Qabs r).

(** The stored document, if any, passes the validators. *)
Definition storeValid (db : option BonusSettings) : Prop :=
  match db with
  | Some doc => schemaValid doc
  | None => True
  end.

(** A response other than a success. *)
Definition rejected (res : Response) : Prop :=
  match res with
  | ok _ => False
  | _ => True
  end.

(** No two tiers at different positions have inclusive ranges that meet. *)
Definition tiersDisjoint (tiers : list BonusTier) : Prop :=
  forall (i j : nat) (ti tj : BonusTier),
    i <> j -> tiers !! i = Some ti -> tiers !! j = Some tj ->
    ~ rangesIntersect (minDeposit ti) (maxDeposit ti) (minDeposit tj) (maxDeposit tj).

(** A request that is not a PUT /tiers/:index. *)
Definition notTierEdit (req : Request) : Prop :=
  match req with
  | PutTier _ _ _ => False
  | _ => True
  end.

(** No stored bonus balance is negative. *)
Definition balancesNonneg (st : Ledger) : Prop :=
  forall (userId : string) (user : User),
    users st !! userId = Some user -> 0 <= bonusBalance user.

(** The stored tiers, if any, are pairwise disjoint. *)
Definition storeDisjoint (db : option BonusSettings) : Prop :=
  match db with
  | Some doc => tiersDisjoint (bonusTiers doc)
  | None => True
  end.

(** What a handler of the settings collection can leave behind: after a
    response other than a success, the collection as it was or as
    [getSettings] left it ([prior] being the document it returned); after a
    success, a document that passes the validators and satisfies [P]. *)
Definition outcome (prior : BonusSettings) (db : option BonusSettings)
    (P : BonusSettings -> Prop) (out : Response * option BonusSettings) : Prop :=
  (rejected (fst out) /\ (snd out = db \/ snd out = Some prior)) \/
  (exists message doc, out = (ok message, Some doc) /\ schemaValid doc /\ P doc).

(** * Example documents *)

(** A settings document with a cap of one eighth. *)
Definition eighthCapSettings : BonusSettings :=
  set_maxBonusAmount (1 # 8) (set_regularBonusPercent 10 defaultSettings).

(** The tiers of the spec's third example, the first one switched off. *)
Definition exampleTiers : list BonusTier :=
  [mkTier 0 5000 5 false; mkTier 1000 5000 10 true; mkTier 2000 3000 20 true].

(** A ledger with one user holding a balance of 50. *)
Definition oneUserLedger : Ledger :=
  mkLedger {[ "u1"%string := mkUser 50 80 ]} [].

(** The configuration of the boundary example: tiers [0,50] and [100,200]. *)
Definition touchingTiers : list BonusTier :=
  [mkTier 0 50 5 true; mkTier 100 200 10 true].

(** The default document holding those two tiers. *)
Definition touchingSettings : BonusSettings :=
  set_bonusTiers touchingTiers defaultSettings.

(** One stored tier, [0,50], switched off. *)
Definition inactiveTierSettings : BonusSettings :=
  set_bonusTiers [mkTier 0 50 5 false] defaultSettings.

(** Additions, one of them rejected for overlap, and a removal. *)
Definition exampleRequests : list Request :=
  [PostTier "root" (mkTierBody 0 50 5);
   PostTier "root" (mkTierBody 40 60 5);
   PostTier "root" (mkTierBody 100 200 10);
   DeleteTier "root" 0;
   PostTier "root" (mkTierBody 0 99 5)].

(** One percent flat, every other path at its default, over binary64. *)
Definition onePercentSettings : Binary64.BonusSettings :=
  Binary64.mkSettings true 1%float 0%float false 100%float 0%float [] false.

(** The full rate, for a deposit of 2^1023. *)
Definition fullRateSettings : Binary64.BonusSettings :=
  Binary64.mkSettings true 100%float 0%float false 100%float 0%float [] false.

(** Stand-ins for the two conversions, right on the integers and on the
    strings used below: decimal digits for an integer, and the value of a
    string of decimal digits, NaN for a string with any other character. *)
Definition integerToString (n : Q) : string := pretty (Qnum n).

Fixpoint digitsToNumber (acc : N) (s : string) : option N :=
  match s with
  | EmptyString => Some acc
  | String c rest =>
      let code := Ascii.N_of_ascii c in
      if (48 <=? code)%N && (code <=? 57)%N
      then digitsToNumber (acc * 10 + (code - 48)) rest
      else None
  end.

Definition decimalToNumber (s : string) : option Q :=
  option_map (fun n => inject_Z (Z.of_N n)) (digitsToNumber 0 s).

(** * Properties *)

(** ** Comparisons and rounding *)

Lemma lt_true (x y : Q) : (x <? y) = true <-> x < y.
Proof.
  unfold JS.lt. rewrite negb_true_iff, <- not_true_iff_false, Qle_bool_iff.
  split; [apply Qnot_le_lt | apply Qlt_not_le].
Qed.

Lemma lt_false (x y : Q) : (x <? y) = false <-> y <= x.
Proof.
  unfold JS.lt. rewrite negb_false_iff. apply Qle_bool_iff.
Qed.

Lemma le_true (x y : Q) : (x <=? y) = true <-> x <= y.
Proof. apply Qle_bool_iff. Qed.

Lemma le_false (x y : Q) : (x <=? y) = false <-> y < x.
Proof.
  unfold JS.le. rewrite <- not_true_iff_false, Qle_bool_iff.
  split; [apply Qnot_le_lt | apply Qlt_not_le].
Qed.

Lemma gt_true (x y : Q) : (x >? y) = true <-> y < x.
Proof. apply lt_true. Qed.

Lemma gt_false (x y : Q) : (x >? y) = false <-> x <= y.
Proof. apply lt_false. Qed.

Lemma ge_true (x y : Q) : (x >=? y) = true <-> y <= x.
Proof. apply le_true. Qed.

Lemma ge_false (x y : Q) : (x >=? y) = false <-> x < y.
Proof. apply le_false. Qed.

(** Case analysis on a comparison, leaving the order fact in the context. *)
Ltac cmp_cases c :=
  let E := fresh "E" in
  destruct c eqn:E;
  [ first [ apply lt_true in E | apply le_true in E ]
  | first [ apply lt_false in E | apply le_false in E ] ].

#[export] Instance Math_round_proper : Proper (Qeq ==> eq) JS.Math_round.
Proof. intros x y H. unfold JS.Math_round. now rewrite H. Qed.

#[export] Instance roundToCents_proper : Proper (Qeq ==> Qeq) roundToCents.
Proof. intros x y H. unfold roundToCents. now rewrite H. Qed.

(** [Math.round y] is within one half of [y], the upper half included. *)
Lemma Math_round_bounds (y : Q) :
  y - (1 # 2) < inject_Z (JS.Math_round y) /\
  inject_Z (JS.Math_round y) <= y + (1 # 2).
Proof.
  unfold JS.Math_round. split.
  - pose proof (Qlt_floor (y + (1 # 2))) as H.
    rewrite inject_Z_plus in H. change (inject_Z 1) with 1 in H. lra.
  - apply Qfloor_le.
Qed.

Lemma Math_round_mono (x y : Q) :
  x <= y -> (JS.Math_round x <= JS.Math_round y)%Z.
Proof. intros H. apply Qfloor_resp_le. lra. Qed.

Lemma Math_round_Z (k : Z) : JS.Math_round (inject_Z k) = k.
Proof.
  unfold JS.Math_round.
  assert (Hlo : (k <= Qfloor (inject_Z k + (1 # 2)))%Z).
  { rewrite <- (Qfloor_Z k) at 1. apply Qfloor_resp_le. lra. }
  assert (Hhi : (Qfloor (inject_Z k + (1 # 2)) < k + 1)%Z).
  { rewrite Zlt_Qlt, inject_Z_plus. change (inject_Z 1) with 1.
    pose proof (Qfloor_le (inject_Z k + (1 # 2))). lra. }
  lia.
Qed.

Lemma roundToCents_mono (x y : Q) : x <= y -> roundToCents x <= roundToCents y.
Proof.
  intros H. unfold roundToCents.
  assert (Hz : (JS.Math_round (x * 100) <= JS.Math_round (y * 100))%Z)
    by (apply Math_round_mono; lra).
  rewrite Zle_Qle in Hz.
  unfold Qdiv. apply Qmult_le_compat_r; [exact Hz | discriminate].
Qed.

(** A whole number of hundredths is left as it is. *)
Lemma roundToCents_cents (k : Z) : roundToCents (inject_Z k / 100) == inject_Z k / 100.
Proof.
  unfold roundToCents.
  assert (E : inject_Z k / 100 * 100 == inject_Z k) by field.
  now rewrite E, Math_round_Z.
Qed.

Lemma roundToCents_0 : roundToCents 0 == 0.
Proof. reflexivity. Qed.

(** The rounded value is within half a hundredth of the argument. *)
Lemma roundToCents_bounds (x : Q) :
  x - (1 # 200) < roundToCents x /\ roundToCents x <= x + (1 # 200).
Proof.
  unfold roundToCents.
  destruct (Math_round_bounds (x * 100)) as [Hlo Hhi].
  set (r := inject_Z (JS.Math_round (x * 100))) in *.
  assert (E : r / 100 == r * (1 # 100)) by field.
  rewrite E. lra.
Qed.

(** ** Validation on save *)

Lemma percentOk_true (p : Q) : percentOk p = true <-> percentInRange p.
Proof.
  unfold percentOk, percentInRange. now rewrite andb_true_iff, ge_true, le_true.
Qed.

Lemma validate_true (doc : BonusSettings) :
  validate doc = true <-> schemaValid doc.
Proof.
  unfold validate, schemaValid.
  rewrite !andb_true_iff, !percentOk_true, forallb_forall, List.Forall_forall.
  setoid_rewrite percentOk_true. tauto.
Qed.

Lemma save_valid (doc : BonusSettings) : schemaValid doc -> save doc = Some doc.
Proof. intros H. apply validate_true in H. unfold save. now rewrite H. Qed.

Lemma save_invalid (doc : BonusSettings) : ~ schemaValid doc -> save doc = None.
Proof.
  intros H. unfold save. destruct (validate doc) eqn:E; [|reflexivity].
  apply validate_true in E. contradiction.
Qed.

(** ** The capped amount *)

Lemma applyMaxCap_le (this : BonusSettings) (x : Q) : applyMaxCap this x <= x.
Proof.
  unfold applyMaxCap.
  cmp_cases (maxBonusAmount this >? 0); simpl; [|lra].
  cmp_cases (x >? maxBonusAmount this); lra.
Qed.

Lemma applyMaxCap_le_cap (this : BonusSettings) (x : Q) :
  0 < maxBonusAmount this -> applyMaxCap this x <= maxBonusAmount this.
Proof.
  intros Hcap. unfold applyMaxCap.
  cmp_cases (maxBonusAmount this >? 0); simpl; [|lra].
  cmp_cases (x >? maxBonusAmount this); lra.
Qed.

Lemma applyMaxCap_nonneg (this : BonusSettings) (x : Q) :
  0 <= x -> 0 <= applyMaxCap this x.
Proof.
  intros Hx. unfold applyMaxCap.
  cmp_cases (maxBonusAmount this >? 0); simpl; [|lra].
  cmp_cases (x >? maxBonusAmount this); lra.
Qed.

(** Past the two early returns. *)
Lemma calculateBonus_main (this : BonusSettings) (d : Q) (f : bool) :
  isEnabled this = true -> minDepositForBonus this <= d ->
  calculateBonus this d f =
  roundToCents (applyMaxCap this (d * selectBonusPercent this d f / 100)).
Proof.
  intros He Hd. unfold calculateBonus. rewrite He. simpl.
  apply lt_false in Hd. now rewrite Hd.
Qed.

(** ** The worked examples of the specification *)

Example flat_rate_500 :
  calculateBonus (set_regularBonusPercent 10 defaultSettings) 500 false == 50.
Proof. reflexivity. Qed.

Example flat_rate_500_capped :
  calculateBonus
    (set_maxBonusAmount 30 (set_regularBonusPercent 10 defaultSettings)) 500 false
  == 30.
Proof. reflexivity. Qed.

Example tiered_2000 :
  calculateBonus
    (set_useTierBonus true
       (set_bonusTiers [mkTier 0 1000 5 true; mkTier 1000 5000 10 true]
          defaultSettings)) 2000 false
  == 200.
Proof. reflexivity. Qed.

Example overlapping_tier_rejected :
  fst (post_tiers "root" (mkTierBody 40 60 5)
         (Some (set_bonusTiers [mkTier 0 50 5 true] defaultSettings)))
  = overlapError.
Proof. reflexivity. Qed.

(** ** Early returns *)

(** C7: with [isEnabled] false, or with a deposit strictly below
    [minDepositForBonus], [calculateBonus] returns 0, whatever the amount
    and the first-deposit flag. *)
Theorem calculateBonus_disabled_or_below_min
    (this : BonusSettings) (depositAmount : Q) (isFirstDeposit : bool) :
  isEnabled this = false \/ depositAmount < minDepositForBonus this ->
  calculateBonus this depositAmount isFirstDeposit = 0.
Proof.
  intros [Hoff | Hlow]; unfold calculateBonus.
  - now rewrite Hoff.
  - destruct (isEnabled this); simpl; [|reflexivity].
    apply lt_true in Hlow. now rewrite Hlow.
Qed.

Lemma calculateBonus_disabled_or_below_min_witness :
  calculateBonus (set_isEnabled false defaultSettings) 500 true = 0 /\
  calculateBonus (set_regularBonusPercent 10 defaultSettings) 99 false = 0.
Proof.
  split.
  - apply calculateBonus_disabled_or_below_min. left. reflexivity.
  - apply calculateBonus_disabled_or_below_min. right. reflexivity.
Defined.

(** C10: on the document [getSettings] creates in an empty collection,
    [calculateBonus] returns 0 for every amount and either flag. *)
Theorem calculateBonus_default_zero (depositAmount : Q) (isFirstDeposit : bool) :
  fst (getSettings None) = defaultSettings /\
  calculateBonus (fst (getSettings None)) depositAmount isFirstDeposit == 0.
Proof.
  split; [reflexivity|].
  simpl. unfold calculateBonus. simpl.
  destruct (depositAmount <? 100); [reflexivity|].
  assert (Hp : selectBonusPercent defaultSettings depositAmount isFirstDeposit = 0).
  { unfold selectBonusPercent. simpl. now rewrite andb_false_r. }
  rewrite Hp.
  assert (Hraw : depositAmount * 0 / 100 == 0) by field.
  unfold applyMaxCap. simpl.
  now rewrite Hraw.
Qed.

(** ** The cap *)

(** C1 (the code departs from it): with [maxBonusAmount = 0.125], a
    deposit of 100 at 10% is clamped to 0.125 and then rounded to 0.13,
    which is above the cap. *)
Theorem calculateBonus_exceeds_cap :
  0 < maxBonusAmount eighthCapSettings /\
  calculateBonus eighthCapSettings 100 false == 13 # 100 /\
  ~ calculateBonus eighthCapSettings 100 false <= maxBonusAmount eighthCapSettings.
Proof.
  split; [reflexivity|]. split; [reflexivity|].
  intros H. vm_compute in H. now apply H.
Qed.

(** What does hold: the result never exceeds the cap rounded to hundredths. *)
Lemma calculateBonus_le_rounded_cap (this : BonusSettings) (d : Q) (f : bool) :
  0 < maxBonusAmount this ->
  calculateBonus this d f <= roundToCents (maxBonusAmount this).
Proof.
  intros Hcap.
  assert (H0 : 0 <= roundToCents (maxBonusAmount this)).
  { rewrite <- roundToCents_0. apply roundToCents_mono. lra. }
  unfold calculateBonus.
  destruct (negb (isEnabled this)); [exact H0|].
  destruct (d <? minDepositForBonus this); [exact H0|].
  apply roundToCents_mono, applyMaxCap_le_cap, Hcap.
Qed.

(** So a cap that is a whole number of hundredths is respected. *)
Lemma calculateBonus_le_cents_cap (this : BonusSettings) (d : Q) (f : bool) (k : Z) :
  0 < maxBonusAmount this -> maxBonusAmount this == inject_Z k / 100 ->
  calculateBonus this d f <= maxBonusAmount this.
Proof.
  intros Hcap Hk.
  pose proof (calculateBonus_le_rounded_cap this d f Hcap) as H.
  rewrite Hk, roundToCents_cents in H. now rewrite Hk.
Qed.

(** ** The percentage *)

(** C5: on the main path, a first deposit with [firstDepositBonusEnabled]
    uses [firstDepositBonusPercent]; [useTierBonus], the tier list and
    [regularBonusPercent] have no influence on the result. *)
Theorem first_deposit_takes_precedence
    (this : BonusSettings) (depositAmount : Q) :
  isEnabled this = true ->
  minDepositForBonus this <= depositAmount ->
  firstDepositBonusEnabled this = true ->
  selectBonusPercent this depositAmount true = firstDepositBonusPercent this /\
  calculateBonus this depositAmount true =
    roundToCents
      (applyMaxCap this (depositAmount * firstDepositBonusPercent this / 100)) /\
  forall (u : bool) (tiers : list BonusTier) (r : Q),
    calculateBonus
      (set_useTierBonus u (set_bonusTiers tiers (set_regularBonusPercent r this)))
      depositAmount true
    = calculateBonus this depositAmount true.
Proof.
  intros He Hd Hf.
  assert (Hsel : forall s, firstDepositBonusEnabled s = true ->
            selectBonusPercent s depositAmount true = firstDepositBonusPercent s).
  { intros s Hs. unfold selectBonusPercent. now rewrite Hs. }
  split; [now apply Hsel|].
  split.
  - rewrite calculateBonus_main by assumption. now rewrite Hsel.
  - intros u tiers r.
    rewrite !calculateBonus_main by assumption.
    now rewrite !Hsel.
Qed.

Lemma first_deposit_takes_precedence_witness :
  let this :=
    set_firstDepositBonusPercent 50
      (set_firstDepositBonusEnabled true
         (set_useTierBonus true
            (set_bonusTiers [mkTier 0 1000 5 true]
               (set_regularBonusPercent 10 defaultSettings)))) in
  selectBonusPercent this 200 true = firstDepositBonusPercent this /\
  calculateBonus this 200 true =
    roundToCents (applyMaxCap this (200 * firstDepositBonusPercent this / 100)) /\
  forall (u : bool) (tiers : list BonusTier) (r : Q),
    calculateBonus
      (set_useTierBonus u (set_bonusTiers tiers (set_regularBonusPercent r this)))
      200 true
    = calculateBonus this 200 true.
Proof.
  intros this.
  apply (first_deposit_takes_precedence this 200).
  - reflexivity.
  - vm_compute. discriminate.
  - reflexivity.
Defined.

(** ** Tier lookup *)

Lemma tierApplies_matches (d : Q) (tier : BonusTier) :
  tierApplies d tier = true <-> tierMatches d tier.
Proof.
  unfold tierApplies, tierMatches.
  rewrite !andb_true_iff, ge_true, le_true. tauto.
Qed.

Lemma find_firstMatchingTier (d : Q) (tiers : list BonusTier) (i : nat)
    (tier : BonusTier) :
  firstMatchingTier d tiers i tier -> find (tierApplies d) tiers = Some tier.
Proof.
  revert i. induction tiers as [|t tiers IH]; intros i (Hi & Hm & Hfirst).
  - discriminate.
  - simpl. destruct i as [|i].
    + injection Hi as ->. apply tierApplies_matches in Hm. now rewrite Hm.
    + destruct (tierApplies d t) eqn:Ht.
      * apply tierApplies_matches in Ht.
        exfalso. apply (Hfirst 0%nat t); [lia | reflexivity | exact Ht].
      * apply (IH i). split; [exact Hi|]. split; [exact Hm|].
        intros j e Hj He. apply (Hfirst (S j) e); [lia | exact He].
Qed.

Lemma find_no_match (d : Q) (tiers : list BonusTier) :
  (forall tier, tier ∈ tiers -> ~ tierMatches d tier) ->
  find (tierApplies d) tiers = None.
Proof.
  induction tiers as [|t tiers IH]; intros Hnone; [reflexivity|].
  simpl. destruct (tierApplies d t) eqn:Ht.
  - apply tierApplies_matches in Ht. exfalso. apply (Hnone t); [left | exact Ht].
  - apply IH. intros tier Hin. apply Hnone. now right.
Qed.

(** Every list either has a first matching tier or no matching tier. *)
Lemma firstMatchingTier_or_none (d : Q) (tiers : list BonusTier) :
  (exists i tier, firstMatchingTier d tiers i tier) \/
  (forall tier, tier ∈ tiers -> ~ tierMatches d tier).
Proof.
  induction tiers as [|t tiers IH].
  - right. intros tier Hin. inversion Hin.
  - destruct (tierApplies d t) eqn:Ht.
    + left. exists 0%nat, t. split; [reflexivity|].
      split; [now apply tierApplies_matches|]. intros j e Hj. lia.
    + assert (Hnot : ~ tierMatches d t).
      { intros Hm. apply tierApplies_matches in Hm. congruence. }
      destruct IH as [(i & tier & Hi & Hm & Hfirst) | Hnone].
      * left. exists (S i), tier. split; [exact Hi|]. split; [exact Hm|].
        intros [|j] e Hj He.
        -- injection He as <-. exact Hnot.
        -- apply (Hfirst j e); [lia | exact He].
      * right. intros tier Hin. inversion Hin; subst; auto.
Qed.

(** C3: enabled, tier mode on, a non-empty tier list, a deposit at or above
    the minimum and the first-deposit path not taken: the percentage is the
    [bonusPercent] of the first tier, in stored order, that is active and
    contains the deposit within its inclusive bounds (so never that of an
    inactive tier), and 0, not [regularBonusPercent], when no tier matches.
    One of the two cases always applies. *)
Theorem tier_lookup_first_active_match
    (this : BonusSettings) (depositAmount : Q) (isFirstDeposit : bool) :
  isEnabled this = true ->
  useTierBonus this = true ->
  bonusTiers this <> [] ->
  minDepositForBonus this <= depositAmount ->
  isFirstDeposit && firstDepositBonusEnabled this = false ->
  (forall i tier,
     firstMatchingTier depositAmount (bonusTiers this) i tier ->
     isActive tier = true /\
     selectBonusPercent this depositAmount isFirstDeposit = bonusPercent tier /\
     calculateBonus this depositAmount isFirstDeposit =
       roundToCents (applyMaxCap this (depositAmount * bonusPercent tier / 100))) /\
  ((forall tier, tier ∈ bonusTiers this -> ~ tierMatches depositAmount tier) ->
     selectBonusPercent this depositAmount isFirstDeposit = 0 /\
     calculateBonus this depositAmount isFirstDeposit == 0) /\
  ((exists i tier, firstMatchingTier depositAmount (bonusTiers this) i tier) \/
   (forall tier, tier ∈ bonusTiers this -> ~ tierMatches depositAmount tier)).
Proof.
  intros He Ht Hne Hd Hfirst.
  assert (Hsel : selectBonusPercent this depositAmount isFirstDeposit =
            match find (tierApplies depositAmount) (bonusTiers this) with
            | Some applicableTier => bonusPercent applicableTier
            | None => 0
            end).
  { unfold selectBonusPercent. rewrite Hfirst, Ht.
    destruct (bonusTiers this); [congruence | reflexivity]. }
  split; [|split].
  - intros i tier Hm.
    split; [apply Hm|].
    rewrite (find_firstMatchingTier _ _ _ _ Hm) in Hsel.
    split; [exact Hsel|].
    rewrite calculateBonus_main by assumption. now rewrite Hsel.
  - intros Hnone.
    rewrite (find_no_match _ _ Hnone) in Hsel.
    split; [exact Hsel|].
    rewrite calculateBonus_main by assumption. rewrite Hsel.
    assert (Hraw : depositAmount * 0 / 100 == 0) by field.
    assert (Hcap : applyMaxCap this (depositAmount * 0 / 100) == 0).
    { unfold applyMaxCap.
      cmp_cases (maxBonusAmount this >? 0); simpl; [|exact Hraw].
      cmp_cases (depositAmount * 0 / 100 >? maxBonusAmount this);
        [lra | exact Hraw]. }
    now rewrite Hcap.
  - apply firstMatchingTier_or_none.
Qed.

Lemma tier_lookup_first_active_match_witness :
  firstMatchingTier 2000 exampleTiers 1 (mkTier 1000 5000 10 true) /\
  calculateBonus (set_useTierBonus true (set_bonusTiers exampleTiers defaultSettings))
    2000 false == 200.
Proof.
  assert (Hm : firstMatchingTier 2000 exampleTiers 1 (mkTier 1000 5000 10 true)).
  { split; [reflexivity|]. split.
    - split; [reflexivity|]. split; discriminate.
    - intros [|j] e Hj He; [|lia].
      injection He as <-. intros [Ha _]. discriminate Ha. }
  split; [exact Hm|].
  pose (this := set_useTierBonus true (set_bonusTiers exampleTiers defaultSettings)).
  destruct (tier_lookup_first_active_match this 2000 false) as [Hsome _].
  - reflexivity.
  - reflexivity.
  - discriminate.
  - vm_compute. discriminate.
  - reflexivity.
  - destruct (Hsome 1%nat (mkTier 1000 5000 10 true) Hm) as (_ & _ & Hres).
    fold this. rewrite Hres. reflexivity.
Defined.

(** ** Rounding to hundredths *)

Lemma Qabs_le_iff (x y : Q) : Qabs x <= y <-> - y <= x /\ x <= y.
Proof. apply Qabs_Qle_condition. Qed.

Lemma roundToCents_half_away (x : Q) :
  0 <= x -> roundedHalfAwayFromZero x (roundToCents x).
Proof.
  intros Hx. destruct (roundToCents_bounds x) as [Hlo Hhi].
  split; [|split].
  - exists (JS.Math_round (x * 100)). reflexivity.
  - apply Qabs_le_iff. lra.
  - intros Htie.
    assert (Hup : roundToCents x - x == 1 # 200).
    { revert Htie. apply Qabs_case; intros H1 H2; lra. }
    rewrite (Qabs_pos x) by exact Hx.
    rewrite Qabs_pos by lra. lra.
Qed.

Lemma selectBonusPercent_nonneg (this : BonusSettings) (d : Q) (f : bool) :
  schemaValid this -> 0 <= selectBonusPercent this d f.
Proof.
  intros (Hr & Hf & Ht). unfold selectBonusPercent.
  destruct (f && firstDepositBonusEnabled this); [apply Hf|].
  destruct (useTierBonus this && (0 <? length (bonusTiers this))%nat);
    [|apply Hr].
  destruct (find (tierApplies d) (bonusTiers this)) as [tier|] eqn:Hfind;
    [|lra].
  apply find_some in Hfind. destruct Hfind as [Hin _].
  rewrite List.Forall_forall in Ht. apply (Ht tier Hin).
Qed.

(** In exact arithmetic, for a schema-valid document and a non-negative
    deposit, the result is a whole number of hundredths, and on the main
    path it is the capped raw bonus rounded at the hundredths place, halves
    away from zero.  Over binary64 values this fails, as shown after the
    lemmas on rounding. *)
Lemma calculateBonus_rounded_to_hundredths
    (this : BonusSettings) (depositAmount : Q) (isFirstDeposit : bool) :
  schemaValid this ->
  0 <= depositAmount ->
  (exists k : Z, calculateBonus this depositAmount isFirstDeposit == inject_Z k / 100) /\
  (isEnabled this = true -> minDepositForBonus this <= depositAmount ->
   roundedHalfAwayFromZero
     (applyMaxCap this
        (depositAmount * selectBonusPercent this depositAmount isFirstDeposit / 100))
     (calculateBonus this depositAmount isFirstDeposit)).
Proof.
  intros Hvalid Hd. split.
  - unfold calculateBonus.
    destruct (negb (isEnabled this)); [now exists 0%Z|].
    destruct (depositAmount <? minDepositForBonus this); [now exists 0%Z|].
    eexists. unfold roundToCents. reflexivity.
  - intros He Hmin. rewrite calculateBonus_main by assumption.
    apply roundToCents_half_away, applyMaxCap_nonneg.
    pose proof (selectBonusPercent_nonneg this depositAmount isFirstDeposit Hvalid) as Hp.
    assert (E : depositAmount * selectBonusPercent this depositAmount isFirstDeposit / 100
                == depositAmount * selectBonusPercent this depositAmount isFirstDeposit * (1 # 100))
      by field.
    rewrite E. apply Qmult_le_0_compat; [|discriminate].
    now apply Qmult_le_0_compat.
Qed.

Lemma calculateBonus_rounded_to_hundredths_witness :
  let this := set_regularBonusPercent 10 defaultSettings in
  (exists k : Z, calculateBonus this (2001 # 20) false == inject_Z k / 100) /\
  roundedHalfAwayFromZero
    (applyMaxCap this ((2001 # 20) * selectBonusPercent this (2001 # 20) false / 100))
    (calculateBonus this (2001 # 20) false).
Proof.
  intros this.
  assert (Hvalid : schemaValid this).
  { repeat split; try discriminate. apply List.Forall_nil. }
  assert (Hd : 0 <= 2001 # 20) by discriminate.
  destruct (calculateBonus_rounded_to_hundredths this (2001 # 20) false Hvalid Hd)
    as [Hk Hround].
  split; [exact Hk|].
  apply Hround; [reflexivity | discriminate].
Defined.

(** The relation determines the rounded value. *)
Lemma roundedHalfAwayFromZero_unique (x r1 r2 : Q) :
  roundedHalfAwayFromZero x r1 -> roundedHalfAwayFromZero x r2 -> r1 == r2.
Proof.
  assert (Hgap : forall r r' k k',
    r == inject_Z k / 100 -> r' == inject_Z k' / 100 ->
    roundedHalfAwayFromZero x r -> roundedHalfAwayFromZero x r' ->
    (k' = k + 1)%Z -> False).
  { intros r r' k k' Hk Hk' (_ & Hn & Ht) (_ & Hn' & Ht') Hsucc.
    subst k'. rewrite inject_Z_plus in Hk'. change (inject_Z 1) with 1 in Hk'.
    assert (Ek : r == inject_Z k * (1 # 100)) by (rewrite Hk; field).
    assert (Ek' : r' == inject_Z k * (1 # 100) + (1 # 100)) by (rewrite Hk'; field).
    apply Qabs_le_iff in Hn. apply Qabs_le_iff in Hn'.
    assert (Hx : x == r + (1 # 200)) by lra.
    assert (Htie : Qabs (r - x) == 1 # 200).
    { rewrite Qabs_neg by lra. lra. }
    assert (Htie' : Qabs (r' - x) == 1 # 200).
    { rewrite Qabs_pos by lra. lra. }
    specialize (Ht Htie). specialize (Ht' Htie').
    assert (Hlo : x < 1 # 400).
    { revert Ht. apply Qabs_case; apply Qabs_case; intros; lra. }
    assert (Hhi : - (1 # 400) < x).
    { revert Ht'. apply Qabs_case; apply Qabs_case; intros; lra. }
    assert (H1 : inject_Z (-1) < inject_Z k) by (change (inject_Z (-1)) with (-1); lra).
    assert (H2 : inject_Z k < inject_Z 0) by (change (inject_Z 0) with 0; lra).
    rewrite <- Zlt_Qlt in H1, H2. lia. }
  intros R1 R2.
  pose proof R1 as ((k1 & Hk1) & B1 & _).
  pose proof R2 as ((k2 & Hk2) & B2 & _).
  apply Qabs_le_iff in B1. apply Qabs_le_iff in B2.
  assert (Ek1 : r1 == inject_Z k1 * (1 # 100)) by (rewrite Hk1; field).
  assert (Ek2 : r2 == inject_Z k2 * (1 # 100)) by (rewrite Hk2; field).
  assert (Hle : inject_Z k1 <= inject_Z (k2 + 1)).
  { rewrite inject_Z_plus. change (inject_Z 1) with 1. lra. }
  assert (Hge : inject_Z k2 <= inject_Z (k1 + 1)).
  { rewrite inject_Z_plus. change (inject_Z 1) with 1. lra. }
  rewrite <- Zle_Qle in Hle, Hge.
  destruct (Z.eq_dec k1 k2) as [->|Hne]; [now rewrite Hk1, Hk2|].
  exfalso.
  destruct (Z.eq_dec k2 (k1 + 1)%Z) as [Hs|Hs'].
  - exact (Hgap r1 r2 k1 k2 Hk1 Hk2 R1 R2 Hs).
  - apply (Hgap r2 r1 k2 k1 Hk2 Hk1 R2 R1). lia.
Qed.

(** The amount has to be non-negative for this: on a negative tie
    [Math.round] goes up, towards zero. *)
Lemma roundToCents_negative_tie :
  roundToCents (- (1 # 8)) == - (12 # 100) /\
  ~ roundedHalfAwayFromZero (- (1 # 8)) (roundToCents (- (1 # 8))).
Proof.
  split; [reflexivity|].
  intros (_ & _ & Htie).
  assert (H : Qabs (roundToCents (- (1 # 8)) - - (1 # 8)) == 1 # 200) by reflexivity.
  specialize (Htie H). vm_compute in Htie. discriminate.
Qed.

(** C4 (the code departs from it): over binary64 values, a deposit of
    100.5 at 1% gives a raw bonus whose product with 100 is
    100.49999999999999, which [Math.round] takes down to 100: the result is
    1, where the raw bonus 100.5 * 1 / 100 = 1.005 rounded at the hundredths
    place, halves away from zero, is 1.01 (the value the exact computation
    gives). *)
Theorem calculateBonus_binary64_misrounds :
  Binary64.denotes 100.5%float (201 # 2) /\
  Binary64.denotes (Binary64.regularBonusPercent onePercentSettings) 1 /\
  roundedHalfAwayFromZero ((201 # 2) * 1 / 100) (101 # 100) /\
  calculateBonus (set_regularBonusPercent 1 defaultSettings) (201 # 2) false
    == 101 # 100 /\
  PrimFloat.mul
    (PrimFloat.div (PrimFloat.mul 100.5%float 1%float) 100%float) 100%float
    = 0x1.91fffffffffffp+6%float /\
  Binary64.calculateBonus onePercentSettings 100.5%float false = 1%float /\
  Binary64.denotes 1%float 1 /\
  ~ 1 == 101 # 100.
Proof.
  split; [reflexivity|]. split; [reflexivity|].
  split.
  { split; [exists 101%Z; reflexivity|].
    split; [vm_compute; discriminate|].
    intros _. vm_compute. reflexivity. }
  split; [reflexivity|]. split; [reflexivity|]. split; [reflexivity|].
  split; [reflexivity|]. discriminate.
Qed.

(** Nor is the result always a number of hundredths: when the product of
    deposit and percentage overflows, it is infinite. *)
Lemma calculateBonus_binary64_overflow :
  Binary64.calculateBonus fullRateSettings 0x1p+1023%float false = infinity /\
  Binary64.toQ (Binary64.calculateBonus fullRateSettings 0x1p+1023%float false)
    = None.
Proof. split; reflexivity. Qed.

(** ** Manual balance adjustment *)

(** On an amount that is a JSON number: for a stored user, the handler
    answers with the negative-balance error exactly when
    [bonusBalance + amount < 0]; then both collections are as before (no
    field changed, no transaction created).  Otherwise the stored user has
    [bonusBalance + amount], [totalBonusReceived] grown by [amount] only
    when [amount > 0], no other user is touched, and one transaction is
    appended.  On a numeric string the rejection is missed, as shown
    below. *)
Lemma adjust_rejects_exactly_negative
    (admin : AdminId) (now : Z) (userId : string) (amount : Q)
    (reason : option string) (st : Ledger) (user : User) :
  users st !! userId = Some user ->
  let res := fst (adjust admin now userId amount reason st) in
  let st' := snd (adjust admin now userId amount reason st) in
  (res = negativeBalanceError <-> bonusBalance user + amount < 0) /\
  (bonusBalance user + amount < 0 -> st' = st) /\
  (0 <= bonusBalance user + amount ->
   exists user' created,
     users st' = <[userId := user']> (users st) /\
     bonusBalance user' = bonusBalance user + amount /\
     (0 < amount -> totalBonusReceived user' = totalBonusReceived user + amount) /\
     (amount <= 0 -> totalBonusReceived user' = totalBonusReceived user) /\
     transactions st' = transactions st ++ [created] /\
     tx_user created = userId /\ tx_amount created = amount /\
     tx_balanceAfter created = bonusBalance user + amount).
Proof.
  intros Hu res st'. subst res st'. unfold adjust. rewrite Hu.
  cmp_cases (bonusBalance user + amount <? 0); simpl.
  - split; [tauto|]. split; [reflexivity|]. intros H. lra.
  - split; [|split].
    + split; [|intros H; lra].
      unfold negativeBalanceError.
      destruct (amount >=? 0); discriminate.
    + intros H. lra.
    + intros _. eexists. eexists.
      split; [reflexivity|]. split; [reflexivity|].
      split; [|split; [|repeat split]].
      * intros Hpos. apply gt_true in Hpos. now rewrite Hpos.
      * intros Hneg. apply gt_false in Hneg. now rewrite Hneg.
Qed.

Lemma adjust_rejects_exactly_negative_witness :
  fst (adjust "root" 0 "u1" (-100) None oneUserLedger) = negativeBalanceError /\
  snd (adjust "root" 0 "u1" (-100) None oneUserLedger) = oneUserLedger.
Proof.
  assert (Hu : users oneUserLedger !! "u1"%string = Some (mkUser 50 80))
    by reflexivity.
  destruct (adjust_rejects_exactly_negative "root" 0 "u1" (-100) None
              oneUserLedger (mkUser 50 80) Hu) as (Hiff & Hsame & _).
  split.
  - apply Hiff. reflexivity.
  - apply Hsame. reflexivity.
Defined.

(** On a JSON number, [adjustRejects] is the test [adjust] makes. *)
Lemma adjustRejects_number
    (numberToString : Q -> string) (stringToNumber : string -> option Q)
    (admin : AdminId) (now : Z) (userId : string) (amount : Q)
    (reason : option string) (st : Ledger) (user : User) :
  users st !! userId = Some user ->
  fst (adjust admin now userId amount reason st) = negativeBalanceError <->
  adjustRejects numberToString stringToNumber (bonusBalance user)
    (AmountNumber amount) = true.
Proof.
  intros Hu. unfold adjust, adjustRejects. rewrite Hu. simpl.
  destruct (bonusBalance user + amount <? 0); simpl; [tauto|].
  split; [|discriminate].
  unfold negativeBalanceError. destruct (amount >=? 0); discriminate.
Qed.

(** C6 (the code departs from it): the string ["-100"] passes the
    [isFloat] chain; on a balance of 50, line 415 then builds the string
    ["50-100"], which is not a number, so the test of line 416 is false and
    the request is not answered with the negative-balance error, although
    50 + (-100) < 0 (the Number -100 is rejected). *)
Theorem adjust_string_amount_not_rejected
    (numberToString : Q -> string) (stringToNumber : string -> option Q) :
  numberToString 50 = "50"%string ->
  stringToNumber "50-100"%string = None ->
  50 + (-100) < 0 /\
  adjustRejects numberToString stringToNumber 50 (AmountNumber (-100)) = true /\
  newBonusBalance numberToString 50 (AmountString "-100")
    = AmountString "50-100" /\
  adjustRejects numberToString stringToNumber 50 (AmountString "-100") = false.
Proof.
  intros Hprint Hparse.
  split; [reflexivity|]. split; [reflexivity|].
  unfold adjustRejects, newBonusBalance, isNegative. rewrite Hprint.
  change ("50" ++ "-100")%string with "50-100"%string.
  split; [reflexivity|]. now rewrite Hparse.
Qed.

Lemma adjust_string_amount_not_rejected_witness :
  50 + (-100) < 0 /\
  adjustRejects integerToString decimalToNumber 50 (AmountNumber (-100)) = true /\
  newBonusBalance integerToString 50 (AmountString "-100")
    = AmountString "50-100" /\
  adjustRejects integerToString decimalToNumber 50 (AmountString "-100") = false.
Proof.
  apply (adjust_string_amount_not_rejected integerToString decimalToNumber).
  - vm_compute. reflexivity.
  - vm_compute. reflexivity.
Defined.

(** ** Partial update of the settings *)

(** An assignment guarded by [!== undefined], seen through a path it does
    not write, and through the path it writes. *)
Lemma ifDefined_frame {A B : Type} (path : BonusSettings -> B) (v : option A)
    (assign : A -> BonusSettings -> BonusSettings) (s : BonusSettings) :
  (forall x s', path (assign x s') = path s') ->
  path (ifDefined v assign s) = path s.
Proof. intros H. destruct v; simpl; [apply H | reflexivity]. Qed.

Lemma ifDefined_sent {A : Type} (path : BonusSettings -> A) (v : option A)
    (assign : A -> BonusSettings -> BonusSettings) (s : BonusSettings) :
  (forall x s', path (assign x s') = x) ->
  path (ifDefined v assign s) = sentOr v (path s).
Proof. intros H. destruct v; simpl; [apply H | reflexivity]. Qed.

(** Reads [path] off a chain of guarded assignments. *)
Ltac read_path path :=
  repeat (rewrite (ifDefined_frame path) by (intros; reflexivity));
  try (rewrite (ifDefined_sent path) by (intros; reflexivity));
  repeat (rewrite (ifDefined_frame path) by (intros; reflexivity));
  reflexivity.

(** C8: the document PUT /settings hands to [save] holds, on each scalar
    path, the value sent for it, or the prior value when none was sent; its
    [bonusTiers] is as before and its [updatedBy] is the admin.  When it
    passes validation it is what the collection holds afterwards; when it
    does not, the answer is the 500 of the [catch] block and the collection
    is as [getSettings] left it, every path at its prior value. *)
Theorem put_settings_partial_update
    (admin : AdminId) (body : SettingsBody) (db : option BonusSettings) :
  let prior := fst (getSettings db) in
  exists settings,
    isEnabled settings = sentOr (body_isEnabled body) (isEnabled prior) /\
    regularBonusPercent settings =
      sentOr (body_regularBonusPercent body) (regularBonusPercent prior) /\
    firstDepositBonusPercent settings =
      sentOr (body_firstDepositBonusPercent body) (firstDepositBonusPercent prior) /\
    firstDepositBonusEnabled settings =
      sentOr (body_firstDepositBonusEnabled body) (firstDepositBonusEnabled prior) /\
    minDepositForBonus settings =
      sentOr (body_minDepositForBonus body) (minDepositForBonus prior) /\
    maxBonusAmount settings =
      sentOr (body_maxBonusAmount body) (maxBonusAmount prior) /\
    bonusWithdrawable settings =
      sentOr (body_bonusWithdrawable body) (bonusWithdrawable prior) /\
    withdrawalVolumeMultiplier settings =
      sentOr (body_withdrawalVolumeMultiplier body) (withdrawalVolumeMultiplier prior) /\
    bonusExpiryDays settings =
      sentOr (body_bonusExpiryDays body) (bonusExpiryDays prior) /\
    useTierBonus settings =
      sentOr (body_useTierBonus body) (useTierBonus prior) /\
    bonusTiers settings = bonusTiers prior /\
    updatedBy settings = Some admin /\
    (schemaValid settings ->
     put_settings admin body db =
       (ok "Bonus settings updated successfully", Some settings)) /\
    (~ schemaValid settings ->
     put_settings admin body db = (error 500 "Server error", Some prior)).
Proof.
  intros prior. unfold put_settings.
  assert (Hdb : getSettings db = (prior, Some prior))
    by (subst prior; now destruct db).
  rewrite Hdb. clearbody prior.
  match goal with |- context [save ?doc] => exists doc end.
  cbn [set_updatedBy isEnabled regularBonusPercent firstDepositBonusPercent
       firstDepositBonusEnabled minDepositForBonus maxBonusAmount
       bonusWithdrawable withdrawalVolumeMultiplier bonusExpiryDays
       useTierBonus bonusTiers updatedBy].
  split; [read_path isEnabled|].
  split; [read_path regularBonusPercent|].
  split; [read_path firstDepositBonusPercent|].
  split; [read_path firstDepositBonusEnabled|].
  split; [read_path minDepositForBonus|].
  split; [read_path maxBonusAmount|].
  split; [read_path bonusWithdrawable|].
  split; [read_path withdrawalVolumeMultiplier|].
  split; [read_path bonusExpiryDays|].
  split; [read_path useTierBonus|].
  split; [read_path bonusTiers|].
  split; [reflexivity|].
  split; intros Hv.
  - now rewrite (save_valid _ Hv).
  - now rewrite (save_invalid _ Hv).
Qed.

(** ** Tier admission *)

Lemma overlapsTier_true (newMin newMax : Q) (tier : BonusTier) :
  overlapsTier newMin newMax tier = true <->
  (minDeposit tier <= newMin /\ newMin <= maxDeposit tier) \/
  (minDeposit tier <= newMax /\ newMax <= maxDeposit tier) \/
  (newMin <= minDeposit tier /\ maxDeposit tier <= newMax).
Proof.
  unfold overlapsTier.
  rewrite !orb_true_iff, !andb_true_iff, !ge_true, !le_true. tauto.
Qed.

(** For a non-empty candidate range, the test of the source holds of every
    tier whose inclusive range meets the candidate's. *)
Lemma overlapsTier_of_intersect (newMin newMax : Q) (tier : BonusTier) :
  newMin <= newMax ->
  rangesIntersect newMin newMax (minDeposit tier) (maxDeposit tier) ->
  overlapsTier newMin newMax tier = true.
Proof.
  intros Hc (x & [H1 H2] & [H3 H4]). apply overlapsTier_true.
  destruct (Qlt_le_dec newMin (minDeposit tier)) as [Ha|Ha].
  - destruct (Qlt_le_dec (maxDeposit tier) newMax) as [Hb|Hb].
    + right. right. lra.
    + right. left. lra.
  - left. lra.
Qed.

(** The test does not read [isActive]. *)
Lemma overlapsTier_isActive (newMin newMax : Q) (tier : BonusTier) (b : bool) :
  overlapsTier newMin newMax
    (mkTier (minDeposit tier) (maxDeposit tier) (bonusPercent tier) b)
  = overlapsTier newMin newMax tier.
Proof. reflexivity. Qed.

Lemma hasOverlap_true (newMin newMax : Q) (tiers : list BonusTier) :
  hasOverlap newMin newMax tiers = true <->
  exists tier, tier ∈ tiers /\ overlapsTier newMin newMax tier = true.
Proof.
  unfold hasOverlap. rewrite existsb_exists.
  split; intros (tier & Hin & Ho); exists tier;
    (split; [now apply list_elem_of_In | exact Ho]).
Qed.

(** What the handler answers once the body passed validation and the range
    check. *)
Lemma post_tiers_checked (admin : AdminId) (body : TierBody)
    (db : option BonusSettings) :
  validateTierBody body = [] ->
  body_minDeposit body < body_maxDeposit body ->
  post_tiers admin body db =
    let '(settings, db') := getSettings db in
    if hasOverlap (body_minDeposit body) (body_maxDeposit body)
         (bonusTiers settings)
    then (overlapError, db')
    else
      match
        save (set_updatedBy admin
                (set_bonusTiers
                   (bonusTiers settings ++
                      [mkTier (body_minDeposit body) (body_maxDeposit body)
                         (body_bonusPercent body) true])
                   settings))
      with
      | Some saved => (ok "Bonus tier added successfully", Some saved)
      | None => (error 500 "Server error", db')
      end.
Proof.
  intros Hv Hr. unfold post_tiers. rewrite Hv.
  apply ge_false in Hr. rewrite Hr. reflexivity.
Qed.

(** C2, as stated, fails: the candidate [50,100] is answered with the
    overlap error and nothing is appended. *)
Lemma post_tiers_boundary_touch_rejected :
  post_tiers "root" (mkTierBody 50 100 7) (Some touchingSettings)
  = (overlapError, Some touchingSettings).
Proof. reflexivity. Qed.

(** C2, amended: whenever the stored tiers are exactly [0,50] and
    [100,200], a valid candidate [50,100] is answered with the overlap
    error and the document is left as it was, since a shared bound lies in
    both inclusive ranges; a candidate strictly inside the gap, [51,99], is
    appended at the end, active. *)
Theorem post_tiers_boundary_touch_is_overlap
    (admin : AdminId) (settings : BonusSettings) (low high : BonusTier)
    (percent : Q) :
  schemaValid settings ->
  bonusTiers settings = [low; high] ->
  minDeposit low == 0 -> maxDeposit low == 50 ->
  minDeposit high == 100 -> maxDeposit high == 200 ->
  0 <= percent -> percent <= 100 ->
  post_tiers admin (mkTierBody 50 100 percent) (Some settings)
    = (overlapError, Some settings) /\
  post_tiers admin (mkTierBody 51 99 percent) (Some settings)
    = (ok "Bonus tier added successfully",
       Some (set_updatedBy admin
               (set_bonusTiers [low; high; mkTier 51 99 percent true] settings))).
Proof.
  intros Hvalid Ht Hl1 Hl2 Hh1 Hh2 Hp1 Hp2.
  assert (Hv : forall a b, 0 <= a -> 0 <= b ->
            validateTierBody (mkTierBody a b percent) = []).
  { intros a b Ha Hb. unfold validateTierBody. simpl.
    apply ge_true in Ha, Hb, Hp1. apply le_true in Hp2.
    now rewrite Ha, Hb, Hp1, Hp2. }
  split.
  - rewrite post_tiers_checked; [|apply Hv; discriminate | reflexivity].
    simpl. rewrite Ht.
    assert (Ho : hasOverlap 50 100 [low; high] = true).
    { apply hasOverlap_true. exists low. split; [left|].
      apply overlapsTier_true. left. lra. }
    now rewrite Ho.
  - rewrite post_tiers_checked; [|apply Hv; discriminate | reflexivity].
    simpl. rewrite Ht.
    assert (Ho : hasOverlap 51 99 [low; high] = false).
    { apply not_true_is_false. rewrite hasOverlap_true.
      intros (tier & Hin & Htier). apply overlapsTier_true in Htier.
      apply elem_of_cons in Hin. destruct Hin as [->|Hin].
      - lra.
      - apply list_elem_of_singleton in Hin. subst tier. lra. }
    rewrite Ho, save_valid; [reflexivity|].
    destruct Hvalid as (Hr & Hf & Htiers). rewrite Ht in Htiers.
    split; [exact Hr|]. split; [exact Hf|]. simpl.
    rewrite List.Forall_forall in Htiers. rewrite List.Forall_forall.
    intros tier [<-|[<-|[<-|[]]]].
    + apply Htiers. now left.
    + apply Htiers. right. now left.
    + split; assumption.
Qed.

Lemma post_tiers_boundary_touch_is_overlap_witness :
  post_tiers "root" (mkTierBody 50 100 7) (Some touchingSettings)
    = (overlapError, Some touchingSettings) /\
  post_tiers "root" (mkTierBody 51 99 7) (Some touchingSettings)
    = (ok "Bonus tier added successfully",
       Some (set_updatedBy "root"
               (set_bonusTiers
                  [mkTier 0 50 5 true; mkTier 100 200 10 true; mkTier 51 99 7 true]
                  touchingSettings))).
Proof.
  apply (post_tiers_boundary_touch_is_overlap "root" touchingSettings
           (mkTier 0 50 5 true) (mkTier 100 200 10 true) 7);
    try reflexivity; try discriminate.
  apply validate_true. reflexivity.
Defined.

(** C9: once the body passed validation and the range check, a candidate
    whose inclusive range meets that of some stored tier is answered with
    the overlap error and the collection is as [getSettings] left it,
    whatever the [isActive] flags: rewriting the flags of the
    stored tiers does not change the outcome of the check. *)
Theorem post_tiers_overlap_ignores_isActive
    (admin : AdminId) (body : TierBody) (settings : BonusSettings)
    (tier : BonusTier) :
  validateTierBody body = [] ->
  body_minDeposit body < body_maxDeposit body ->
  tier ∈ bonusTiers settings ->
  rangesIntersect (body_minDeposit body) (body_maxDeposit body)
    (minDeposit tier) (maxDeposit tier) ->
  post_tiers admin body (Some settings) = (overlapError, Some settings) /\
  forall flag : BonusTier -> bool,
    let relabel t := mkTier (minDeposit t) (maxDeposit t) (bonusPercent t) (flag t) in
    let settings' := set_bonusTiers (map relabel (bonusTiers settings)) settings in
    post_tiers admin body (Some settings') = (overlapError, Some settings').
Proof.
  intros Hv Hr Hin Hx.
  assert (Ho : overlapsTier (body_minDeposit body) (body_maxDeposit body) tier = true)
    by (apply overlapsTier_of_intersect; [lra | exact Hx]).
  split.
  - rewrite post_tiers_checked by assumption. simpl.
    assert (H : hasOverlap (body_minDeposit body) (body_maxDeposit body)
                  (bonusTiers settings) = true)
      by (apply hasOverlap_true; eauto).
    now rewrite H.
  - intros flag relabel settings'.
    rewrite post_tiers_checked by assumption. simpl.
    assert (H : hasOverlap (body_minDeposit body) (body_maxDeposit body)
                  (map relabel (bonusTiers settings)) = true).
    { apply hasOverlap_true. exists (relabel tier).
      split; [now apply list_elem_of_fmap_2|].
      unfold relabel. now rewrite overlapsTier_isActive. }
    now rewrite H.
Qed.

Lemma post_tiers_overlap_ignores_isActive_witness :
  post_tiers "root" (mkTierBody 40 60 7) (Some inactiveTierSettings)
  = (overlapError, Some inactiveTierSettings).
Proof.
  apply (post_tiers_overlap_ignores_isActive "root" (mkTierBody 40 60 7)
           inactiveTierSettings (mkTier 0 50 5 false)).
  - reflexivity.
  - reflexivity.
  - left.
  - exists 45. repeat split; discriminate.
Defined.

(** * Further properties *)

(** ** Bounds on the bonus *)

Lemma selectBonusPercent_le_100 (this : BonusSettings) (d : Q) (f : bool) :
  schemaValid this -> selectBonusPercent this d f <= 100.
Proof.
  intros (Hr & Hf & Ht). unfold selectBonusPercent.
  destruct (f && firstDepositBonusEnabled this); [apply Hf|].
  destruct (useTierBonus this && (0 <? length (bonusTiers this))%nat);
    [|apply Hr].
  destruct (find (tierApplies d) (bonusTiers this)) as [tier|] eqn:Hfind;
    [|discriminate].
  apply find_some in Hfind. destruct Hfind as [Hin _].
  rewrite List.Forall_forall in Ht. apply (Ht tier Hin).
Qed.

Lemma rawBonus_bounds (d p : Q) :
  0 <= d -> 0 <= p -> p <= 100 -> 0 <= d * p / 100 /\ d * p / 100 <= d.
Proof.
  intros Hd Hp0 Hp1.
  assert (E : d * p / 100 == d * p * (1 # 100)) by field.
  assert (H0 : 0 <= d * p) by now apply Qmult_le_0_compat.
  assert (H1 : d * p <= d * 100).
  { rewrite (Qmult_comm d p), (Qmult_comm d 100).
    now apply Qmult_le_compat_r. }
  rewrite E. lra.
Qed.

Lemma applyMaxCap_mono (this : BonusSettings) (x y : Q) :
  x <= y -> applyMaxCap this x <= applyMaxCap this y.
Proof.
  intros Hxy. unfold applyMaxCap.
  cmp_cases (maxBonusAmount this >? 0); simpl; [|exact Hxy].
  cmp_cases (x >? maxBonusAmount this);
    cmp_cases (y >? maxBonusAmount this); lra.
Qed.

Lemma calculateBonus_early_return
    (this : BonusSettings) (d : Q) (f : bool) :
  isEnabled this = false \/ d < minDepositForBonus this ->
  calculateBonus this d f = 0.
Proof.
  intros [Hoff | Hlow]; unfold calculateBonus.
  - now rewrite Hoff.
  - destruct (isEnabled this); simpl; [|reflexivity].
    apply lt_true in Hlow. now rewrite Hlow.
Qed.

Lemma calculateBonus_ge_0 (this : BonusSettings) (d : Q) (f : bool) :
  schemaValid this -> 0 <= d -> 0 <= calculateBonus this d f.
Proof.
  intros Hvalid Hd. unfold calculateBonus.
  destruct (negb (isEnabled this)); [lra|].
  destruct (d <? minDepositForBonus this); [lra|].
  destruct (rawBonus_bounds d (selectBonusPercent this d f) Hd) as [Hlo _].
  - now apply selectBonusPercent_nonneg.
  - now apply selectBonusPercent_le_100.
  - rewrite <- roundToCents_0. apply roundToCents_mono.
    now apply applyMaxCap_nonneg.
Qed.

(** X1: for a document that passes the validators and a non-negative
    deposit, the bonus is never negative. *)
Theorem calculateBonus_never_negative
    (this : BonusSettings) (depositAmount : Q) (isFirstDeposit : bool) :
  schemaValid this ->
  0 <= depositAmount ->
  0 <= calculateBonus this depositAmount isFirstDeposit.
Proof. apply calculateBonus_ge_0. Qed.

Lemma calculateBonus_never_negative_witness :
  let this := set_firstDepositBonusEnabled true
                (set_firstDepositBonusPercent 100 defaultSettings) in
  0 <= calculateBonus this (201 # 2) true.
Proof.
  intros this.
  apply (calculateBonus_never_negative this (201 # 2) true).
  - apply validate_true. reflexivity.
  - discriminate.
Defined.

(** X3: a cap never raises the bonus: whatever value is stored in
    [maxBonusAmount], the result is at most the one obtained with the cap
    switched off (0); a cap that is zero or negative changes nothing. *)
Theorem calculateBonus_cap_only_lowers
    (this : BonusSettings) (cap depositAmount : Q) (isFirstDeposit : bool) :
  calculateBonus (set_maxBonusAmount cap this) depositAmount isFirstDeposit
    <= calculateBonus (set_maxBonusAmount 0 this) depositAmount isFirstDeposit /\
  (cap <= 0 ->
   calculateBonus (set_maxBonusAmount cap this) depositAmount isFirstDeposit
   = calculateBonus (set_maxBonusAmount 0 this) depositAmount isFirstDeposit).
Proof.
  unfold calculateBonus. cbn [set_maxBonusAmount isEnabled minDepositForBonus].
  destruct (negb (isEnabled this)); [split; [lra | reflexivity]|].
  destruct (depositAmount <? minDepositForBonus this); [split; [lra | reflexivity]|].
  assert (Hsel : forall c,
            selectBonusPercent (set_maxBonusAmount c this) depositAmount isFirstDeposit
            = selectBonusPercent this depositAmount isFirstDeposit) by reflexivity.
  rewrite !Hsel.
  set (raw := depositAmount * selectBonusPercent this depositAmount isFirstDeposit / 100).
  assert (Hoff : applyMaxCap (set_maxBonusAmount 0 this) raw = raw) by reflexivity.
  rewrite Hoff. split.
  - apply roundToCents_mono, applyMaxCap_le.
  - intros Hc. unfold applyMaxCap. cbn [set_maxBonusAmount maxBonusAmount].
    apply gt_false in Hc. now rewrite Hc.
Qed.

(** X4: with an empty tier list, tier mode is not in effect: the result is
    the one obtained with [useTierBonus] off (the flat rate), not 0. *)
Theorem calculateBonus_empty_tiers_flat
    (this : BonusSettings) (depositAmount : Q) (isFirstDeposit : bool) :
  bonusTiers this = [] ->
  calculateBonus this depositAmount isFirstDeposit
  = calculateBonus (set_useTierBonus false this) depositAmount isFirstDeposit.
Proof.
  intros Hnil. unfold calculateBonus, selectBonusPercent, applyMaxCap.
  cbn [set_useTierBonus isEnabled minDepositForBonus firstDepositBonusEnabled
       firstDepositBonusPercent useTierBonus bonusTiers regularBonusPercent
       maxBonusAmount].
  rewrite Hnil. simpl. now rewrite andb_false_r.
Qed.

Lemma calculateBonus_empty_tiers_flat_witness :
  let this := set_useTierBonus true (set_regularBonusPercent 10 defaultSettings) in
  calculateBonus this 500 false
  = calculateBonus (set_useTierBonus false this) 500 false /\
  calculateBonus this 500 false == 50.
Proof.
  intros this. split.
  - apply (calculateBonus_empty_tiers_flat this 500 false). reflexivity.
  - reflexivity.
Defined.

(** X5: outside tier mode, on a document that passes the validators, a
    larger deposit never earns a smaller bonus. *)
Theorem calculateBonus_flat_monotone
    (this : BonusSettings) (d1 d2 : Q) (isFirstDeposit : bool) :
  schemaValid this ->
  useTierBonus this = false ->
  0 <= d1 -> d1 <= d2 ->
  calculateBonus this d1 isFirstDeposit <= calculateBonus this d2 isFirstDeposit.
Proof.
  intros Hvalid Hflat H0 H12.
  destruct (isEnabled this) eqn:He.
  2:{ rewrite !calculateBonus_early_return by (left; exact He). lra. }
  destruct (Qlt_le_dec d1 (minDepositForBonus this)) as [Hlow|Hhigh].
  - rewrite (calculateBonus_early_return this d1) by (right; exact Hlow).
    apply calculateBonus_ge_0; [exact Hvalid | lra].
  - rewrite !calculateBonus_main by (try assumption; lra).
    assert (Hsel : selectBonusPercent this d2 isFirstDeposit
                   = selectBonusPercent this d1 isFirstDeposit).
    { unfold selectBonusPercent. now rewrite Hflat. }
    rewrite Hsel.
    pose proof (selectBonusPercent_nonneg this d1 isFirstDeposit Hvalid) as Hp.
    apply roundToCents_mono, applyMaxCap_mono.
    set (p := selectBonusPercent this d1 isFirstDeposit) in *.
    assert (E1 : d1 * p / 100 == d1 * p * (1 # 100)) by field.
    assert (E2 : d2 * p / 100 == d2 * p * (1 # 100)) by field.
    assert (Hm : d1 * p <= d2 * p) by now apply Qmult_le_compat_r.
    rewrite E1, E2. lra.
Qed.

Lemma calculateBonus_flat_monotone_witness :
  let this := set_maxBonusAmount 30 (set_regularBonusPercent 10 defaultSettings) in
  calculateBonus this 99 false <= calculateBonus this 250 false /\
  calculateBonus this 250 false <= calculateBonus this 500 false.
Proof.
  intros this.
  assert (Hvalid : schemaValid this) by (apply validate_true; reflexivity).
  split.
  - apply (calculateBonus_flat_monotone this 99 250 false Hvalid);
      [reflexivity | discriminate | discriminate].
  - apply (calculateBonus_flat_monotone this 250 500 false Hvalid);
      [reflexivity | discriminate | discriminate].
Defined.

(** ** The settings collection *)

Lemma getSettings_stored (db : option BonusSettings) :
  getSettings db = (fst (getSettings db), Some (fst (getSettings db))).
Proof. now destruct db. Qed.

Lemma getSettings_valid (db : option BonusSettings) :
  storeValid db -> schemaValid (fst (getSettings db)).
Proof.
  destruct db as [doc|]; simpl; [auto|].
  intros _. apply validate_true. reflexivity.
Qed.

Lemma save_Some (doc saved : BonusSettings) :
  save doc = Some saved -> saved = doc /\ schemaValid doc.
Proof.
  unfold save. destruct (validate doc) eqn:E; [|discriminate].
  intros [= <-]. split; [reflexivity | now apply validate_true].
Qed.

Lemma index_in_range (index : Z) (n : nat) :
  (index <? 0)%Z || (index >=? Z.of_nat n)%Z = false <->
  (0 <= index < Z.of_nat n)%Z.
Proof.
  rewrite orb_false_iff, Z.ltb_ge, Z.geb_leb, Z.leb_gt. lia.
Qed.

Lemma index_out_of_range (index : Z) (n : nat) :
  (index <? 0)%Z || (index >=? Z.of_nat n)%Z = true <->
  (index < 0 \/ Z.of_nat n <= index)%Z.
Proof.
  rewrite orb_true_iff, Z.ltb_lt, Z.geb_leb, Z.leb_le. lia.
Qed.

(** Validity looks at the percentages only. *)
Lemma schemaValid_set_bonusTiers (doc : BonusSettings) (tiers : list BonusTier) :
  schemaValid doc ->
  Forall (fun tier => percentInRange (bonusPercent tier)) tiers ->
  schemaValid (set_bonusTiers tiers doc).
Proof. intros (Hr & Hf & _) Ht. split; [exact Hr | split; [exact Hf | exact Ht]]. Qed.

Lemma schemaValid_set_updatedBy (admin : AdminId) (doc : BonusSettings) :
  schemaValid (set_updatedBy admin doc) <-> schemaValid doc.
Proof. reflexivity. Qed.

(** ** Tier positions *)

(** X6: for a path segment that is the decimal form of an integer, PUT
    and DELETE /tiers/:index answer 404 when that integer is negative or is
    at or past the number of stored tiers; the collection is as
    [getSettings] left it. *)
Theorem tier_index_out_of_range
    (admin : AdminId) (index : Z) (patch : TierPatch) (db : option BonusSettings) :
  (index < 0 \/ Z.of_nat (length (bonusTiers (fst (getSettings db)))) <= index)%Z ->
  put_tier admin index patch db
    = (error 404 "Tier not found", Some (fst (getSettings db))) /\
  delete_tier admin index db
    = (error 404 "Tier not found", Some (fst (getSettings db))).
Proof.
  intros Hout. apply index_out_of_range in Hout.
  unfold put_tier, delete_tier. rewrite getSettings_stored.
  now rewrite Hout.
Qed.

Lemma tier_index_out_of_range_witness :
  put_tier "root" 2 (mkTierPatch None None (Some 50) None) (Some touchingSettings)
    = (error 404 "Tier not found", Some touchingSettings) /\
  delete_tier "root" 2 (Some touchingSettings)
    = (error 404 "Tier not found", Some touchingSettings).
Proof.
  apply (tier_index_out_of_range "root" 2 (mkTierPatch None None (Some 50) None)
           (Some touchingSettings)).
  right. simpl. lia.
Defined.

Lemma assignTierFields_fields (patch : TierPatch) (tier : BonusTier) :
  minDeposit (assignTierFields patch tier)
    = sentOr (patch_minDeposit patch) (minDeposit tier) /\
  maxDeposit (assignTierFields patch tier)
    = sentOr (patch_maxDeposit patch) (maxDeposit tier) /\
  bonusPercent (assignTierFields patch tier)
    = sentOr (patch_bonusPercent patch) (bonusPercent tier) /\
  isActive (assignTierFields patch tier)
    = sentOr (patch_isActive patch) (isActive tier).
Proof. destruct patch as [[?|] [?|] [?|] [?|]]; repeat split. Qed.

(** X7: for a path segment that is the canonical decimal form of a
    position in range, PUT /tiers/:index hands to [save] a document whose
    tier list has the same length, is unchanged at every other position,
    and holds at that position the old tier with each sent field replaced;
    no other path but [updatedBy] changes.  The bounds are not checked
    against each other or against the other tiers: the document is stored
    whenever it passes the validators, and otherwise the answer is 500 with
    the stored document untouched. *)
Theorem put_tier_updates_one
    (admin : AdminId) (index : Z) (patch : TierPatch) (db : option BonusSettings) :
  let prior := fst (getSettings db) in
  (0 <= index < Z.of_nat (length (bonusTiers prior)))%Z ->
  exists (tiers : list BonusTier) (old : BonusTier),
    bonusTiers prior !! Z.to_nat index = Some old /\
    tiers !! Z.to_nat index = Some (assignTierFields patch old) /\
    minDeposit (assignTierFields patch old)
      = sentOr (patch_minDeposit patch) (minDeposit old) /\
    maxDeposit (assignTierFields patch old)
      = sentOr (patch_maxDeposit patch) (maxDeposit old) /\
    bonusPercent (assignTierFields patch old)
      = sentOr (patch_bonusPercent patch) (bonusPercent old) /\
    isActive (assignTierFields patch old)
      = sentOr (patch_isActive patch) (isActive old) /\
    length tiers = length (bonusTiers prior) /\
    (forall j : nat, j <> Z.to_nat index -> tiers !! j = bonusTiers prior !! j) /\
    let doc := set_updatedBy admin (set_bonusTiers tiers prior) in
    (schemaValid doc ->
     put_tier admin index patch db
       = (ok "Bonus tier updated successfully", Some doc)) /\
    (~ schemaValid doc ->
     put_tier admin index patch db = (error 500 "Server error", Some prior)).
Proof.
  intros prior Hin.
  assert (Hlt : (Z.to_nat index < length (bonusTiers prior))%nat) by lia.
  destruct (lookup_lt_is_Some_2 _ _ Hlt) as [old Hold].
  exists (alter (assignTierFields patch) (Z.to_nat index) (bonusTiers prior)), old.
  destruct (assignTierFields_fields patch old) as (F1 & F2 & F3 & F4).
  split; [exact Hold|].
  split; [now rewrite list_lookup_alter_eq, Hold|].
  split; [exact F1|]. split; [exact F2|]. split; [exact F3|]. split; [exact F4|].
  split; [apply length_alter|].
  split; [intros j Hj; now apply list_lookup_alter_ne|].
  apply index_in_range in Hin.
  unfold put_tier. rewrite getSettings_stored. fold prior. rewrite Hin.
  split; intros Hv.
  - now rewrite (save_valid _ Hv).
  - now rewrite (save_invalid _ Hv).
Qed.

Lemma put_tier_updates_one_witness :
  put_tier "root" 1 (mkTierPatch (Some 0) None None (Some false))
    (Some touchingSettings)
  = (ok "Bonus tier updated successfully",
     Some (set_updatedBy "root"
             (set_bonusTiers [mkTier 0 50 5 true; mkTier 0 200 10 false]
                touchingSettings))).
Proof.
  destruct (put_tier_updates_one "root" 1 (mkTierPatch (Some 0) None None (Some false))
              (Some touchingSettings))
    as (tiers & old & Hold & Hnew & _ & _ & _ & _ & Hlen & Hother & Hok & _).
  - simpl. lia.
  - assert (E : tiers = [mkTier 0 50 5 true; mkTier 0 200 10 false]).
    { apply list_eq. intros [|[|j]].
      - rewrite Hother by (simpl; lia). reflexivity.
      - injection Hold as <-. exact Hnew.
      - rewrite Hother by (simpl; lia). reflexivity. }
    rewrite E in Hok. apply Hok. apply validate_true. reflexivity.
Defined.

Lemma Forall_alter_percent (patch : TierPatch) (i : nat) (tiers : list BonusTier) :
  patch_bonusPercent patch = None ->
  Forall (fun tier => percentInRange (bonusPercent tier)) tiers ->
  Forall (fun tier => percentInRange (bonusPercent tier))
    (alter (assignTierFields patch) i tiers).
Proof.
  intros Hp. rewrite !List.Forall_forall. intros H tier Hin.
  apply list_elem_of_In, list_elem_of_lookup in Hin. destruct Hin as [j Hj].
  destruct (decide (i = j)) as [->|Hne].
  - rewrite list_lookup_alter_eq in Hj.
    destruct (tiers !! j) as [old|] eqn:Hold; [|discriminate].
    injection Hj as <-.
    destruct (assignTierFields_fields patch old) as (_ & _ & F3 & _).
    rewrite F3, Hp. simpl. apply H.
    apply list_elem_of_In, list_elem_of_lookup. eauto.
  - rewrite list_lookup_alter_ne in Hj by exact Hne.
    apply H. apply list_elem_of_In, list_elem_of_lookup. eauto.
Qed.

(** X8: the update does not look at the other tiers.  On a document that
    passes the validators, giving the tier at position [i] the bounds of
    the tier at another position [j] (whose range is not empty) is accepted
    and stores a tier list that is no longer pairwise disjoint. *)
Theorem put_tier_can_overlap
    (admin : AdminId) (settings : BonusSettings) (i j : nat) (ti tj : BonusTier) :
  schemaValid settings ->
  i <> j ->
  bonusTiers settings !! i = Some ti ->
  bonusTiers settings !! j = Some tj ->
  minDeposit tj <= maxDeposit tj ->
  exists doc,
    put_tier admin (Z.of_nat i)
      (mkTierPatch (Some (minDeposit tj)) (Some (maxDeposit tj)) None None)
      (Some settings)
    = (ok "Bonus tier updated successfully", Some doc) /\
    ~ tiersDisjoint (bonusTiers doc).
Proof.
  intros Hvalid Hij Hi Hj Hne.
  set (patch := mkTierPatch (Some (minDeposit tj)) (Some (maxDeposit tj)) None None).
  set (tiers := alter (assignTierFields patch) i (bonusTiers settings)).
  exists (set_updatedBy admin (set_bonusTiers tiers settings)).
  split.
  - unfold put_tier. simpl getSettings. cbv iota beta.
    assert (Hin : (0 <= Z.of_nat i < Z.of_nat (length (bonusTiers settings)))%Z).
    { apply lookup_lt_Some in Hi. lia. }
    apply index_in_range in Hin. rewrite Hin, Nat2Z.id. fold tiers.
    rewrite save_valid; [reflexivity|].
    apply schemaValid_set_bonusTiers; [exact Hvalid|].
    apply Forall_alter_percent; [reflexivity | apply Hvalid].
  - intros Hdis. simpl in Hdis.
    apply (Hdis i j (assignTierFields patch ti) tj Hij).
    + unfold tiers. now rewrite list_lookup_alter_eq, Hi.
    + unfold tiers. now rewrite list_lookup_alter_ne.
    + exists (minDeposit tj). simpl. repeat split; lra.
Qed.

Lemma put_tier_can_overlap_witness :
  exists doc,
    put_tier "root" 0 (mkTierPatch (Some 100) (Some 200) None None)
      (Some touchingSettings)
    = (ok "Bonus tier updated successfully", Some doc) /\
    ~ tiersDisjoint (bonusTiers doc).
Proof.
  apply (put_tier_can_overlap "root" touchingSettings 0 1
           (mkTier 0 50 5 true) (mkTier 100 200 10 true)).
  - apply validate_true. reflexivity.
  - discriminate.
  - reflexivity.
  - reflexivity.
  - discriminate.
Defined.

(** X9: for an index in range on a document that passes the validators,
    DELETE /tiers/:index succeeds and stores a tier list one shorter, equal
    to the old one before [index] and shifted down by one from [index] on;
    no other path but [updatedBy] changes. *)
Theorem delete_tier_shifts
    (admin : AdminId) (index : Z) (db : option BonusSettings) :
  let prior := fst (getSettings db) in
  storeValid db ->
  (0 <= index < Z.of_nat (length (bonusTiers prior)))%Z ->
  exists tiers : list BonusTier,
    delete_tier admin index db
      = (ok "Bonus tier deleted successfully",
         Some (set_updatedBy admin (set_bonusTiers tiers prior))) /\
    S (length tiers) = length (bonusTiers prior) /\
    (forall j : nat, (j < Z.to_nat index)%nat -> tiers !! j = bonusTiers prior !! j) /\
    (forall j : nat, (Z.to_nat index <= j)%nat ->
       tiers !! j = bonusTiers prior !! S j).
Proof.
  intros prior Hvalid Hin.
  exists (delete (Z.to_nat index) (bonusTiers prior)).
  assert (Hlt : (Z.to_nat index < length (bonusTiers prior))%nat) by lia.
  split; [|split; [|split]].
  - apply index_in_range in Hin.
    unfold delete_tier. rewrite getSettings_stored. fold prior. rewrite Hin.
    rewrite save_valid; [reflexivity|].
    pose proof (getSettings_valid db Hvalid) as Hp. fold prior in Hp.
    apply schemaValid_set_bonusTiers; [exact Hp|].
    destruct Hp as (_ & _ & Ht).
    rewrite List.Forall_forall in Ht. rewrite List.Forall_forall.
    intros tier Ht'. apply Ht.
    apply list_elem_of_In. apply list_elem_of_In in Ht'.
    apply list_elem_of_lookup in Ht'. destruct Ht' as [k Hk].
    rewrite list_lookup_delete in Hk. apply list_elem_of_lookup. eauto.
  - rewrite length_delete by now apply lookup_lt_is_Some_2. lia.
  - intros k Hk. now apply list_lookup_delete_lt.
  - intros k Hk. now apply list_lookup_delete_ge.
Qed.

Lemma delete_tier_shifts_witness :
  exists tiers : list BonusTier,
    delete_tier "root" 0 (Some touchingSettings)
      = (ok "Bonus tier deleted successfully",
         Some (set_updatedBy "root" (set_bonusTiers tiers touchingSettings))) /\
    S (length tiers) = 2%nat /\
    (forall j : nat, (j < 0)%nat -> tiers !! j = touchingTiers !! j) /\
    (forall j : nat, (0 <= j)%nat -> tiers !! j = touchingTiers !! S j).
Proof.
  apply (delete_tier_shifts "root" 0 (Some touchingSettings)).
  - apply validate_true. reflexivity.
  - simpl. lia.
Defined.

(** ** Adding a tier *)

Lemma validateTierBody_nil (body : TierBody) :
  validateTierBody body = [] <->
  0 <= body_minDeposit body /\ 0 <= body_maxDeposit body /\
  percentInRange (body_bonusPercent body).
Proof.
  unfold validateTierBody, percentInRange.
  cmp_cases (body_minDeposit body >=? 0);
    cmp_cases (body_maxDeposit body >=? 0);
    cmp_cases (body_bonusPercent body >=? 0);
    cmp_cases (body_bonusPercent body <=? 100); simpl;
    split; intros H; try discriminate; try reflexivity; try lra.
Qed.

(** The document POST /tiers hands to [save]. *)
Lemma post_tiers_ok_inv (admin : AdminId) (body : TierBody)
    (db : option BonusSettings) (message : string) :
  fst (post_tiers admin body db) = ok message ->
  let prior := fst (getSettings db) in
  let doc :=
    set_updatedBy admin
      (set_bonusTiers
         (bonusTiers prior ++
            [mkTier (body_minDeposit body) (body_maxDeposit body)
               (body_bonusPercent body) true])
         prior) in
  validateTierBody body = [] /\
  body_minDeposit body < body_maxDeposit body /\
  hasOverlap (body_minDeposit body) (body_maxDeposit body) (bonusTiers prior) = false /\
  schemaValid doc /\
  post_tiers admin body db = (ok "Bonus tier added successfully", Some doc).
Proof.
  intros Hok prior doc. revert Hok. unfold post_tiers.
  destruct (validateTierBody body) eqn:Hv; [|discriminate].
  cmp_cases (body_minDeposit body >=? body_maxDeposit body); [discriminate|].
  rewrite getSettings_stored. fold prior.
  destruct (hasOverlap _ _ (bonusTiers prior)) eqn:Ho; [discriminate|].
  fold doc. destruct (save doc) as [saved|] eqn:Hs; [|discriminate].
  apply save_Some in Hs. destruct Hs as [-> Hvalid].
  intros _. repeat split; try assumption; apply Hvalid.
Qed.

(** X10: on a body whose three fields are JSON numbers, when POST /tiers
    succeeds, every check was passed: the bounds are non-negative with min
    below max, the percentage lies in [0,100], the candidate passes the
    overlap test against every stored tier, and the stored tier list is the
    old one followed by the candidate, active; no other path but
    [updatedBy] changes. *)
Theorem post_tiers_success_sound
    (admin : AdminId) (body : TierBody) (db : option BonusSettings)
    (message : string) :
  fst (post_tiers admin body db) = ok message ->
  let prior := fst (getSettings db) in
  0 <= body_minDeposit body /\
  body_minDeposit body < body_maxDeposit body /\
  percentInRange (body_bonusPercent body) /\
  (forall tier, tier ∈ bonusTiers prior ->
     overlapsTier (body_minDeposit body) (body_maxDeposit body) tier = false) /\
  snd (post_tiers admin body db)
    = Some (set_updatedBy admin
              (set_bonusTiers
                 (bonusTiers prior ++
                    [mkTier (body_minDeposit body) (body_maxDeposit body)
                       (body_bonusPercent body) true])
                 prior)).
Proof.
  intros Hok prior.
  destruct (post_tiers_ok_inv admin body db message Hok)
    as (Hv & Hr & Ho & _ & Heq).
  apply validateTierBody_nil in Hv. destruct Hv as (H1 & _ & H3).
  split; [exact H1|]. split; [exact Hr|]. split; [exact H3|].
  split.
  - intros tier Hin. apply not_true_is_false. intros Ht.
    assert (H : hasOverlap (body_minDeposit body) (body_maxDeposit body)
                  (bonusTiers prior) = true)
      by (apply hasOverlap_true; eauto).
    fold prior in Ho. congruence.
  - now rewrite Heq.
Qed.

Lemma post_tiers_success_sound_witness :
  snd (post_tiers "root" (mkTierBody 51 99 7) (Some touchingSettings))
  = Some (set_updatedBy "root"
            (set_bonusTiers (touchingTiers ++ [mkTier 51 99 7 true])
               touchingSettings)).
Proof.
  apply (post_tiers_success_sound "root" (mkTierBody 51 99 7)
           (Some touchingSettings) "Bonus tier added successfully").
  reflexivity.
Defined.

(** X11: on a body whose three fields are JSON numbers, a negative bound
    or a percentage outside [0,100] is answered with between one and three
    validation errors, and otherwise a min that is not below the max with
    the 400 range error; in both cases the collection is not even read: an
    empty collection stays empty. *)
Theorem post_tiers_early_rejections
    (admin : AdminId) (body : TierBody) (db : option BonusSettings) :
  (~ (0 <= body_minDeposit body /\ 0 <= body_maxDeposit body /\
      percentInRange (body_bonusPercent body)) ->
   exists errors,
     (1 <= length errors <= 3)%nat /\
     post_tiers admin body db = (invalid errors, db)) /\
  (0 <= body_minDeposit body /\ 0 <= body_maxDeposit body /\
   percentInRange (body_bonusPercent body) ->
   body_maxDeposit body <= body_minDeposit body ->
   post_tiers admin body db
     = (error 400 "Min deposit must be less than max deposit", db)).
Proof.
  split.
  - intros Hbad. rewrite <- validateTierBody_nil in Hbad.
    unfold post_tiers.
    destruct (validateTierBody body) as [|e errors] eqn:Hv; [contradiction|].
    exists (e :: errors). split; [|reflexivity].
    assert (Hlen : (length (validateTierBody body) <= 3)%nat).
    { unfold validateTierBody.
      destruct (body_minDeposit body >=? 0), (body_maxDeposit body >=? 0),
        ((body_bonusPercent body >=? 0) && (body_bonusPercent body <=? 100));
        simpl; lia. }
    rewrite Hv in Hlen. simpl in *. lia.
  - intros Hgood Hrange. apply validateTierBody_nil in Hgood.
    unfold post_tiers. rewrite Hgood.
    apply ge_true in Hrange. now rewrite Hrange.
Qed.

(** X12: against a stored tier whose min is not above its max, and for a
    candidate whose min is not above its max, the overlap test of the source
    holds exactly when the two inclusive ranges share a point. *)
Theorem overlapsTier_iff_intersect (newMin newMax : Q) (tier : BonusTier) :
  newMin <= newMax ->
  minDeposit tier <= maxDeposit tier ->
  overlapsTier newMin newMax tier = true <->
  rangesIntersect newMin newMax (minDeposit tier) (maxDeposit tier).
Proof.
  intros Hc Ht. split.
  - intros H. apply overlapsTier_true in H.
    destruct H as [[H1 H2] | [[H1 H2] | [H1 H2]]].
    + exists newMin. repeat split; lra.
    + exists newMax. repeat split; lra.
    + exists (minDeposit tier). repeat split; lra.
  - now apply overlapsTier_of_intersect.
Qed.

Lemma overlapsTier_iff_intersect_witness :
  overlapsTier 50 100 (mkTier 0 50 5 false) = true <->
  rangesIntersect 50 100 0 50.
Proof.
  apply (overlapsTier_iff_intersect 50 100 (mkTier 0 50 5 false)); discriminate.
Defined.

Example post_tiers_two_errors :
  post_tiers "root" (mkTierBody (-1) 5 150) None
  = (invalid ["Min deposit must be a positive number";
              "Bonus percent must be between 0 and 100"]%string, None).
Proof. reflexivity. Qed.

(** ** Outcomes of the handlers *)

Lemma outcome_of_save (prior doc : BonusSettings) (db : option BonusSettings)
    (P : BonusSettings -> Prop) (message : string) :
  P doc ->
  outcome prior db P
    match save doc with
    | Some saved => (ok message, Some saved)
    | None => (error 500 "Server error", Some prior)
    end.
Proof.
  intros HP. destruct (save doc) as [saved|] eqn:Hs.
  - apply save_Some in Hs. destruct Hs as [-> Hv].
    right. exists message, doc. auto.
  - left. split; [exact I | now right].
Qed.

Lemma put_settings_outcome (admin : AdminId) (body : SettingsBody)
    (db : option BonusSettings) :
  outcome (fst (getSettings db)) db
    (fun doc => bonusTiers doc = bonusTiers (fst (getSettings db)))
    (put_settings admin body db).
Proof.
  unfold put_settings. rewrite getSettings_stored.
  apply outcome_of_save.
  cbn [set_updatedBy bonusTiers]. read_path bonusTiers.
Qed.

Lemma post_tiers_outcome (admin : AdminId) (body : TierBody)
    (db : option BonusSettings) :
  outcome (fst (getSettings db)) db
    (fun doc =>
       body_minDeposit body < body_maxDeposit body /\
       hasOverlap (body_minDeposit body) (body_maxDeposit body)
         (bonusTiers (fst (getSettings db))) = false /\
       bonusTiers doc =
         bonusTiers (fst (getSettings db)) ++
           [mkTier (body_minDeposit body) (body_maxDeposit body)
              (body_bonusPercent body) true])
    (post_tiers admin body db).
Proof.
  unfold post_tiers.
  destruct (validateTierBody body); [|left; split; [exact I | now left]].
  cmp_cases (body_minDeposit body >=? body_maxDeposit body);
    [left; split; [exact I | now left]|].
  rewrite getSettings_stored.
  destruct (hasOverlap _ _ _) eqn:Ho; [left; split; [exact I | now right]|].
  apply outcome_of_save. auto.
Qed.

Lemma put_tier_outcome (admin : AdminId) (index : Z) (patch : TierPatch)
    (db : option BonusSettings) :
  outcome (fst (getSettings db)) db
    (fun doc =>
       bonusTiers doc =
         alter (assignTierFields patch) (Z.to_nat index)
           (bonusTiers (fst (getSettings db))))
    (put_tier admin index patch db).
Proof.
  unfold put_tier. rewrite getSettings_stored.
  destruct (_ || _); [left; split; [exact I | now right]|].
  now apply outcome_of_save.
Qed.

Lemma delete_tier_outcome (admin : AdminId) (index : Z)
    (db : option BonusSettings) :
  outcome (fst (getSettings db)) db
    (fun doc =>
       bonusTiers doc = delete (Z.to_nat index) (bonusTiers (fst (getSettings db))))
    (delete_tier admin index db).
Proof.
  unfold delete_tier. rewrite getSettings_stored.
  destruct (_ || _); [left; split; [exact I | now right]|].
  now apply outcome_of_save.
Qed.

Lemma outcome_weaken (prior : BonusSettings) (db : option BonusSettings)
    (P Q : BonusSettings -> Prop) (out : Response * option BonusSettings) :
  (forall doc, P doc -> Q doc) -> outcome prior db P out -> outcome prior db Q out.
Proof.
  intros HPQ [Hrej | (m & doc & Heq & Hv & HP)]; [now left|].
  right. exists m, doc. auto.
Qed.

Lemma route_outcome (req : Request) (db : option BonusSettings) :
  outcome (fst (getSettings db)) db (fun _ => True) (route req db).
Proof.
  destruct req; simpl.
  - eapply outcome_weaken; [|apply put_settings_outcome]. auto.
  - eapply outcome_weaken; [|apply post_tiers_outcome]. auto.
  - eapply outcome_weaken; [|apply put_tier_outcome]. auto.
  - eapply outcome_weaken; [|apply delete_tier_outcome]. auto.
Qed.

(** X13: whatever the requests served (settings updates, tier additions,
    updates and removals, in any order and with any bodies), a collection
    that is empty or holds a document passing the validators never comes to
    hold a document that fails them. *)
Theorem serve_keeps_valid (reqs : list Request) (db : option BonusSettings) :
  storeValid db -> storeValid (serve reqs db).
Proof.
  unfold serve. revert db. induction reqs as [|req reqs IH]; intros db Hv.
  - exact Hv.
  - simpl. apply IH.
    destruct (route_outcome req db) as [[_ [-> | ->]] | (m & doc & -> & Hd & _)].
    + exact Hv.
    + now apply getSettings_valid.
    + exact Hd.
Qed.

Lemma serve_keeps_valid_witness :
  storeValid
    (serve [PostTier "root" (mkTierBody 0 50 5);
            PutSettings "root"
              (mkSettingsBody None (Some 150) None None None None None None None None);
            PutTier "root" 0 (mkTierPatch None None (Some (-3)) None);
            DeleteTier "root" 4]
       None).
Proof.
  apply (serve_keeps_valid _ None). exact I.
Defined.

(** X14: a handler that answers with anything but a success leaves a
    stored document exactly as it was; on an empty collection it leaves the
    collection empty or holding the default document. *)
Theorem rejected_request_changes_nothing
    (req : Request) (db : option BonusSettings) :
  rejected (fst (route req db)) ->
  match db with
  | Some doc => snd (route req db) = Some doc
  | None => snd (route req db) = None \/ snd (route req db) = Some defaultSettings
  end.
Proof.
  intros Hrej.
  destruct (route_outcome req db) as [[_ Hdb] | (m & doc & Heq & _)].
  - destruct db as [doc|]; simpl in Hdb; [now destruct Hdb | exact Hdb].
  - rewrite Heq in Hrej. contradiction.
Qed.

Lemma rejected_request_changes_nothing_witness :
  snd (route (PostTier "root" (mkTierBody 40 60 7)) (Some inactiveTierSettings))
  = Some inactiveTierSettings.
Proof.
  apply (rejected_request_changes_nothing
           (PostTier "root" (mkTierBody 40 60 7)) (Some inactiveTierSettings)).
  exact I.
Defined.

(** ** Disjoint tiers *)

Lemma rangesIntersect_sym (a b c d : Q) :
  rangesIntersect a b c d -> rangesIntersect c d a b.
Proof. intros (x & H1 & H2). exists x. split; assumption. Qed.

Lemma tiersDisjoint_delete (i : nat) (tiers : list BonusTier) :
  tiersDisjoint tiers -> tiersDisjoint (delete i tiers).
Proof.
  intros Hd a b ta tb Hab Ha Hb.
  rewrite list_lookup_delete in Ha, Hb.
  refine (Hd _ _ ta tb _ Ha Hb).
  repeat case_decide; lia.
Qed.

Lemma tiersDisjoint_snoc (tiers : list BonusTier) (new : BonusTier) :
  tiersDisjoint tiers ->
  (forall tier, tier ∈ tiers ->
     ~ rangesIntersect (minDeposit new) (maxDeposit new)
         (minDeposit tier) (maxDeposit tier)) ->
  tiersDisjoint (tiers ++ [new]).
Proof.
  intros Hd Hnew a b ta tb Hab Ha Hb.
  apply lookup_snoc_Some in Ha, Hb.
  destruct Ha as [[Ha1 Ha2] | [Ha1 <-]], Hb as [[Hb1 Hb2] | [Hb1 <-]].
  - now apply (Hd a b).
  - intros Hx. apply rangesIntersect_sym in Hx. revert Hx.
    apply Hnew. apply list_elem_of_lookup. eauto.
  - apply Hnew. apply list_elem_of_lookup. eauto.
  - lia.
Qed.

Lemma hasOverlap_false_disjoint (newMin newMax : Q) (tiers : list BonusTier) :
  newMin <= newMax ->
  hasOverlap newMin newMax tiers = false ->
  forall tier, tier ∈ tiers ->
    ~ rangesIntersect newMin newMax (minDeposit tier) (maxDeposit tier).
Proof.
  intros Hc Ho tier Hin Hx.
  assert (H : hasOverlap newMin newMax tiers = true).
  { apply hasOverlap_true. exists tier. split; [exact Hin|].
    now apply overlapsTier_of_intersect. }
  congruence.
Qed.

Lemma getSettings_disjoint (db : option BonusSettings) :
  storeDisjoint db -> tiersDisjoint (bonusTiers (fst (getSettings db))).
Proof.
  destruct db as [doc|]; simpl; [auto|].
  intros _ i j ti tj _ Hi. discriminate Hi.
Qed.

Lemma route_keeps_disjoint (req : Request) (db : option BonusSettings) :
  notTierEdit req -> storeDisjoint db -> storeDisjoint (snd (route req db)).
Proof.
  intros Hreq Hd.
  pose proof (getSettings_disjoint db Hd) as Hprior.
  assert (Hrej : forall out : Response * option BonusSettings,
            out.2 = db \/ out.2 = Some (fst (getSettings db)) ->
            storeDisjoint out.2).
  { intros out [-> | ->]; [exact Hd | exact Hprior]. }
  destruct req as [admin body | admin body | admin index patch | admin index];
    simpl in *.
  - destruct (put_settings_outcome admin body db)
      as [[_ H] | (m & doc & -> & _ & Ht)]; [now apply Hrej|].
    simpl. now rewrite Ht.
  - destruct (post_tiers_outcome admin body db)
      as [[_ H] | (m & doc & -> & _ & Hr & Ho & Ht)]; [now apply Hrej|].
    simpl. rewrite Ht. apply tiersDisjoint_snoc; [exact Hprior|].
    simpl. apply hasOverlap_false_disjoint; [lra | exact Ho].
  - contradiction.
  - destruct (delete_tier_outcome admin index db)
      as [[_ H] | (m & doc & -> & _ & Ht)]; [now apply Hrej|].
    simpl. rewrite Ht. now apply tiersDisjoint_delete.
Qed.

Lemma disjoint_unique_match (d : Q) (tiers : list BonusTier) (i j : nat)
    (ti tj : BonusTier) :
  tiersDisjoint tiers ->
  tiers !! i = Some ti -> tiers !! j = Some tj ->
  tierMatches d ti -> tierMatches d tj -> i = j.
Proof.
  intros Hd Hi Hj (_ & Hi1 & Hi2) (_ & Hj1 & Hj2).
  destruct (decide (i = j)) as [E|Hne]; [exact E|].
  exfalso. apply (Hd i j ti tj Hne Hi Hj).
  exists d. repeat split; assumption.
Qed.

(** X15: as long as no PUT /tiers/:index is served, tiers that are
    pairwise disjoint (in particular none, as in a fresh collection) stay
    pairwise disjoint under any sequence of settings updates, tier additions
    and tier removals; in the stored document a deposit then matches at most
    one tier. *)
Theorem serve_keeps_disjoint (reqs : list Request) (db : option BonusSettings) :
  Forall notTierEdit reqs ->
  storeDisjoint db ->
  forall doc, serve reqs db = Some doc ->
    tiersDisjoint (bonusTiers doc) /\
    forall (d : Q) (i j : nat) (ti tj : BonusTier),
      bonusTiers doc !! i = Some ti -> bonusTiers doc !! j = Some tj ->
      tierMatches d ti -> tierMatches d tj -> i = j.
Proof.
  intros Hreqs Hd doc Hdoc.
  assert (H : storeDisjoint (serve reqs db)).
  { clear doc Hdoc. unfold serve. revert db Hd.
    induction Hreqs as [|req reqs Hreq _ IH]; intros db Hd; [exact Hd|].
    simpl. apply IH. now apply route_keeps_disjoint. }
  rewrite Hdoc in H. simpl in H.
  split; [exact H|].
  intros d i j ti tj. now apply disjoint_unique_match.
Qed.

Lemma serve_keeps_disjoint_witness :
  exists doc,
    serve exampleRequests None = Some doc /\ tiersDisjoint (bonusTiers doc).
Proof.
  destruct (serve exampleRequests None) as [doc|] eqn:E.
  - exists doc. split; [reflexivity|].
    apply (serve_keeps_disjoint exampleRequests None); [| exact I | exact E].
    repeat constructor.
  - vm_compute in E. discriminate.
Defined.

Lemma disjoint_unique_element (d : Q) (tiers : list BonusTier) (t t' : BonusTier) :
  tiersDisjoint tiers -> In t tiers -> In t' tiers ->
  tierApplies d t = true -> tierApplies d t' = true -> t = t'.
Proof.
  intros Hd Hin Hin' Ht Ht'.
  apply list_elem_of_In, list_elem_of_lookup in Hin, Hin'.
  destruct Hin as [i Hi], Hin' as [j Hj].
  apply tierApplies_matches in Ht, Ht'.
  assert (i = j) by now apply (disjoint_unique_match d tiers i j t t').
  subst j. congruence.
Qed.

(** X16: when the stored tiers are pairwise disjoint, the bonus does not
    depend on the order in which they are stored. *)
Theorem calculateBonus_order_irrelevant
    (this : BonusSettings) (tiers : list BonusTier) (depositAmount : Q)
    (isFirstDeposit : bool) :
  tiersDisjoint (bonusTiers this) ->
  Permutation (bonusTiers this) tiers ->
  calculateBonus (set_bonusTiers tiers this) depositAmount isFirstDeposit
  = calculateBonus this depositAmount isFirstDeposit.
Proof.
  intros Hd Hperm.
  assert (Hfind : find (tierApplies depositAmount) tiers
                  = find (tierApplies depositAmount) (bonusTiers this)).
  { destruct (find (tierApplies depositAmount) tiers) as [t'|] eqn:H';
      destruct (find (tierApplies depositAmount) (bonusTiers this)) as [t|] eqn:H.
    - apply find_some in H, H'. destruct H as [Hin Ht], H' as [Hin' Ht'].
      f_equal. apply (disjoint_unique_element depositAmount (bonusTiers this));
        try assumption.
      apply (Permutation_in _ (Permutation_sym Hperm)), Hin'.
    - apply find_some in H'. destruct H' as [Hin' Ht'].
      apply (Permutation_in _ (Permutation_sym Hperm)) in Hin'.
      pose proof (find_none _ _ H _ Hin'). congruence.
    - apply find_some in H. destruct H as [Hin Ht].
      apply (Permutation_in _ Hperm) in Hin.
      pose proof (find_none _ _ H' _ Hin). congruence.
    - reflexivity. }
  unfold calculateBonus, selectBonusPercent, applyMaxCap.
  cbn [set_bonusTiers isEnabled minDepositForBonus firstDepositBonusEnabled
       firstDepositBonusPercent useTierBonus bonusTiers regularBonusPercent
       maxBonusAmount].
  now rewrite Hfind, (Permutation_length Hperm).
Qed.

Lemma calculateBonus_order_irrelevant_witness :
  let this := set_useTierBonus true touchingSettings in
  calculateBonus
    (set_bonusTiers [mkTier 100 200 10 true; mkTier 0 50 5 true] this) 150 false
  = calculateBonus this 150 false.
Proof.
  intros this.
  apply (calculateBonus_order_irrelevant this).
  - intros [|[|i]] [|[|j]] ti tj Hij Hi Hj; try discriminate; try lia;
      injection Hi as <-; injection Hj as <-; intros (x & [H1 H2] & [H3 H4]);
      simpl in *; lra.
  - apply perm_swap.
Defined.

(** ** Composition of requests *)

(** X17: removing, right after a successful POST /tiers, the position the
    new tier was appended at succeeds and brings the document back to what
    it was, [updatedBy] apart. *)
Theorem post_then_delete_restores
    (admin admin' : AdminId) (body : TierBody) (db : option BonusSettings)
    (message : string) :
  fst (post_tiers admin body db) = ok message ->
  let prior := fst (getSettings db) in
  delete_tier admin' (Z.of_nat (length (bonusTiers prior)))
    (snd (post_tiers admin body db))
  = (ok "Bonus tier deleted successfully", Some (set_updatedBy admin' prior)).
Proof.
  intros Hok prior.
  destruct (post_tiers_ok_inv admin body db message Hok)
    as (_ & _ & _ & Hvalid & Heq).
  fold prior in Hvalid, Heq. rewrite Heq. cbn [snd].
  unfold delete_tier. cbn [getSettings].
  cbn [set_updatedBy set_bonusTiers bonusTiers].
  set (new := mkTier _ _ _ true).
  assert (Hin : (0 <= Z.of_nat (length (bonusTiers prior))
                 < Z.of_nat (length (bonusTiers prior ++ [new])))%Z).
  { rewrite length_app. simpl. lia. }
  apply index_in_range in Hin. rewrite Hin, Nat2Z.id.
  rewrite (delete_middle (bonusTiers prior) [] new), app_nil_r.
  rewrite save_valid; [reflexivity|].
  destruct Hvalid as (Hr & Hf & Ht). simpl in Hr, Hf, Ht.
  split; [exact Hr|]. split; [exact Hf|]. simpl.
  rewrite List.Forall_forall in Ht. rewrite List.Forall_forall.
  intros tier Htier. apply Ht. apply in_or_app. now left.
Qed.

Lemma post_then_delete_restores_witness :
  delete_tier "ops" 2
    (snd (post_tiers "root" (mkTierBody 51 99 7) (Some touchingSettings)))
  = (ok "Bonus tier deleted successfully",
     Some (set_updatedBy "ops" touchingSettings)).
Proof.
  apply (post_then_delete_restores "root" "ops" (mkTierBody 51 99 7)
           (Some touchingSettings) "Bonus tier added successfully").
  reflexivity.
Defined.

(** Two documents with the same value on every path are the same. *)
Lemma settings_ext (s s' : BonusSettings) :
  isEnabled s = isEnabled s' ->
  regularBonusPercent s = regularBonusPercent s' ->
  firstDepositBonusPercent s = firstDepositBonusPercent s' ->
  firstDepositBonusEnabled s = firstDepositBonusEnabled s' ->
  minDepositForBonus s = minDepositForBonus s' ->
  maxBonusAmount s = maxBonusAmount s' ->
  bonusWithdrawable s = bonusWithdrawable s' ->
  withdrawalVolumeMultiplier s = withdrawalVolumeMultiplier s' ->
  bonusExpiryDays s = bonusExpiryDays s' ->
  bonusTiers s = bonusTiers s' ->
  useTierBonus s = useTierBonus s' ->
  updatedBy s = updatedBy s' ->
  s = s'.
Proof. destruct s, s'; simpl; intros; subst; reflexivity. Qed.

(** Reads [path] off a chain of guarded assignments applied twice. *)
Ltac read_path_twice path :=
  repeat first
    [ rewrite (ifDefined_frame path) by (intros; reflexivity)
    | rewrite (ifDefined_sent path) by (intros; reflexivity)
    | progress cbn [set_updatedBy isEnabled regularBonusPercent
                    firstDepositBonusPercent firstDepositBonusEnabled
                    minDepositForBonus maxBonusAmount bonusWithdrawable
                    withdrawalVolumeMultiplier bonusExpiryDays bonusTiers
                    useTierBonus updatedBy] ];
  try match goal with |- context [sentOr ?v _] => destruct v end;
  reflexivity.

(** X18: PUT /settings is safe to repeat: sending the same body again, by
    the same admin, gives the same response and leaves the collection as
    the first request left it. *)
Theorem put_settings_idempotent
    (admin : AdminId) (body : SettingsBody) (db : option BonusSettings) :
  put_settings admin body (snd (put_settings admin body db))
  = put_settings admin body db.
Proof.
  unfold put_settings at 2 3. rewrite getSettings_stored.
  set (prior := fst (getSettings db)).
  match goal with |- context [save ?d] => set (doc := d) end.
  assert (Hagain : forall s,
            put_settings admin body (Some s) =
            match save (set_updatedBy admin
                    (ifDefined (body_useTierBonus body) set_useTierBonus
                    (ifDefined (body_bonusExpiryDays body) set_bonusExpiryDays
                    (ifDefined (body_withdrawalVolumeMultiplier body)
                       set_withdrawalVolumeMultiplier
                    (ifDefined (body_bonusWithdrawable body) set_bonusWithdrawable
                    (ifDefined (body_maxBonusAmount body) set_maxBonusAmount
                    (ifDefined (body_minDepositForBonus body) set_minDepositForBonus
                    (ifDefined (body_firstDepositBonusEnabled body)
                       set_firstDepositBonusEnabled
                    (ifDefined (body_firstDepositBonusPercent body)
                       set_firstDepositBonusPercent
                    (ifDefined (body_regularBonusPercent body) set_regularBonusPercent
                    (ifDefined (body_isEnabled body) set_isEnabled s)))))))))))
            with
            | Some saved => (ok "Bonus settings updated successfully", Some saved)
            | None => (error 500 "Server error", Some s)
            end) by reflexivity.
  destruct (save doc) as [saved|] eqn:Hs; cbn [snd]; rewrite Hagain.
  - apply save_Some in Hs. destruct Hs as [-> Hv].
    match goal with |- context [save ?d] => assert (E : d = doc) end.
    { subst doc.
      apply settings_ext.
      - read_path_twice isEnabled.
      - read_path_twice regularBonusPercent.
      - read_path_twice firstDepositBonusPercent.
      - read_path_twice firstDepositBonusEnabled.
      - read_path_twice minDepositForBonus.
      - read_path_twice maxBonusAmount.
      - read_path_twice bonusWithdrawable.
      - read_path_twice withdrawalVolumeMultiplier.
      - read_path_twice bonusExpiryDays.
      - read_path_twice bonusTiers.
      - read_path_twice useTierBonus.
      - reflexivity. }
    rewrite E. now rewrite (save_valid _ Hv).
  - fold doc. now rewrite Hs.
Qed.

(** ** The ledger *)

(** What one adjustment does to the ledger. *)
Lemma adjust_cases (admin : AdminId) (now : Z) (userId : string) (amount : Q)
    (reason : option string) (st : Ledger) :
  (users st !! userId = None /\
   adjust admin now userId amount reason st = (error 404 "User not found", st)) \/
  (exists user, users st !! userId = Some user /\
     bonusBalance user + amount < 0 /\
     adjust admin now userId amount reason st = (negativeBalanceError, st)) \/
  (exists user message, users st !! userId = Some user /\
     0 <= bonusBalance user + amount /\
     adjust admin now userId amount reason st =
       (ok message,
        mkLedger
          (<[userId :=
               mkUser (bonusBalance user + amount)
                 (if amount >? 0 then totalBonusReceived user + amount
                  else totalBonusReceived user)]> (users st))
          (transactions st ++
             [mkTransaction userId "bonus" amount "completed" (descriptionOf reason)
                (bonusBalance user + amount - amount) (bonusBalance user + amount)
                now admin]))).
Proof.
  unfold adjust. destruct (users st !! userId) as [user|] eqn:Hu; [|now left].
  right. cmp_cases (bonusBalance user + amount <? 0).
  - left. exists user. auto.
  - right. exists user. eexists. split; [reflexivity|]. split; [exact E|].
    reflexivity.
Qed.

(** X19: an adjustment for an unknown user is answered with 404, and it
    is the only way to get that answer; whenever the answer is not a
    success, both collections are exactly as before. *)
Theorem adjust_rejected_unchanged
    (admin : AdminId) (now : Z) (userId : string) (amount : Q)
    (reason : option string) (st : Ledger) :
  (fst (adjust admin now userId amount reason st) = error 404 "User not found"
   <-> users st !! userId = None) /\
  (rejected (fst (adjust admin now userId amount reason st)) ->
   snd (adjust admin now userId amount reason st) = st).
Proof.
  destruct (adjust_cases admin now userId amount reason st)
    as [[Hu ->] | [(user & Hu & _ & ->) | (user & m & Hu & _ & ->)]]; simpl.
  - split; [tauto | reflexivity].
  - split; [|reflexivity]. unfold negativeBalanceError.
    split; [discriminate | congruence].
  - split; [|contradiction]. split; [discriminate | congruence].
Qed.

Lemma adjust_keeps_nonneg (a : Adjustment) (st : Ledger) :
  balancesNonneg st -> balancesNonneg (snd (applyAdjustment a st)).
Proof.
  intros Hst. unfold applyAdjustment.
  destruct (adjust_cases (adj_admin a) (adj_now a) (adj_userId a) (adj_amount a)
              (adj_reason a) st)
    as [[_ ->] | [(user & _ & _ & ->) | (user & m & Hu & Hge & ->)]];
    simpl; try exact Hst.
  intros uid u. simpl. intros Hlook.
  apply lookup_insert_Some in Hlook.
  destruct Hlook as [[_ <-] | [_ Hlook]]; [exact Hge | now apply (Hst uid)].
Qed.

(** X20: no sequence of adjustments, whatever the amounts and the users
    named, makes a bonus balance negative in a ledger where none was. *)
Theorem adjustments_keep_balances_nonneg (l : list Adjustment) (st : Ledger) :
  balancesNonneg st -> balancesNonneg (applyAdjustments l st).
Proof.
  unfold applyAdjustments. revert st.
  induction l as [|a l IH]; intros st Hst; [exact Hst|].
  simpl. apply IH. now apply adjust_keeps_nonneg.
Qed.

Lemma adjustments_keep_balances_nonneg_witness :
  balancesNonneg
    (applyAdjustments
       [mkAdjustment "root" 1 "u1" (-30) None;
        mkAdjustment "root" 2 "u1" (-30) (Some "correction"%string);
        mkAdjustment "root" 3 "u2" 10 None]
       oneUserLedger).
Proof.
  apply adjustments_keep_balances_nonneg.
  intros uid u Hu. unfold oneUserLedger in Hu. simpl in Hu.
  apply lookup_singleton_Some in Hu. destruct Hu as [_ <-]. discriminate.
Defined.



Lemma adjust_success (admin : AdminId) (now : Z) (userId : string) (amount : Q)
    (reason : option string) (st : Ledger) (user : User) :
  users st !! userId = Some user ->
  0 <= bonusBalance user + amount ->
  snd (adjust admin now userId amount reason st) =
  mkLedger
    (<[userId :=
         mkUser (bonusBalance user + amount)
           (if amount >? 0 then totalBonusReceived user + amount
            else totalBonusReceived user)]> (users st))
    (transactions st ++
       [mkTransaction userId "bonus" amount "completed" (descriptionOf reason)
          (bonusBalance user + amount - amount) (bonusBalance user + amount)
          now admin]).
Proof.
  intros Hu Hge. unfold adjust. rewrite Hu.
  apply lt_false in Hge. now rewrite Hge.
Qed.



Lemma descriptionOf_nonempty (reason : option string) :
  descriptionOf reason <> ""%string /\
  forall r, reason = Some r -> r <> ""%string -> descriptionOf reason = r.
Proof.
  split.
  - destruct reason as [[|c r]|]; discriminate.
  - intros r -> Hr. destruct r; [contradiction | reflexivity].
Qed.

(** X23: the record a successful adjustment appends is a completed
    transaction of type bonus, stamped with the admin and the time of the
    request; its description is never empty: it is the reason when one was
    given and is not the empty string, and the default text otherwise. *)
Theorem adjust_audit_record
    (admin : AdminId) (now : Z) (userId : string) (amount : Q)
    (reason : option string) (st : Ledger) (message : string) :
  fst (adjust admin now userId amount reason st) = ok message ->
  exists created,
    transactions (snd (adjust admin now userId amount reason st))
      = transactions st ++ [created] /\
    tx_type created = "bonus"%string /\
    tx_status created = "completed"%string /\
    tx_processedBy created = admin /\
    tx_processedAt created = now /\
    tx_description created <> ""%string /\
    (forall r, reason = Some r -> r <> ""%string -> tx_description created = r) /\
    ((reason = None \/ reason = Some ""%string) ->
     tx_description created = "Manual bonus adjustment by admin"%string).
Proof.
  intros Hok.
  destruct (adjust_cases admin now userId amount reason st)
    as [[_ E] | [(user & _ & _ & E) | (user & m & _ & _ & E)]];
    rewrite E in Hok |- *; try discriminate Hok.
  eexists. split; [reflexivity|]. simpl.
  destruct (descriptionOf_nonempty reason) as [Hne Hr].
  repeat split; try assumption.
  intros [-> | ->]; reflexivity.
Qed.

Lemma adjust_audit_record_witness :
  exists created,
    transactions (snd (adjust "root" 7 "u1" 25 (Some ""%string) oneUserLedger))
      = transactions oneUserLedger ++ [created] /\
    tx_description created = "Manual bonus adjustment by admin"%string.
Proof.
  destruct (adjust_audit_record "root" 7 "u1" 25 (Some ""%string) oneUserLedger
              "Bonus added successfully")
    as (created & Hlog & _ & _ & _ & _ & _ & _ & Hdefault).
  - reflexivity.
  - exists created. split; [exact Hlog|]. apply Hdefault. now right.
Defined.
